(** * School fee application: record store, credential store, reports

    A shallow embedding of [app.py]: the identity generator, the credential
    store kept in [users.json], the record store kept in [fees_data.csv]
    and the two reports computed from the loaded records.

    Python strings are modelled by [string], holding their UTF-8 bytes, so
    [s.encode('utf-8')] is the identity on the model.  Files live in a map
    from paths to contents; every function that touches the disk takes the
    file system and returns the new one. *)

From Stdlib Require Import ZArith Ascii String List Bool Lia DecimalString DecimalZ.
From stdpp Require Import gmap strings list fin_maps sorting.

Local Open Scope string_scope.
Local Open Scope list_scope.

(** ** hashlib: MD5 and SHA-256 on byte strings *)

Module Hashlib.

Local Open Scope Z_scope.

Definition byte_of_ascii (c : ascii) : Z := Z.of_N (N_of_ascii c).

Definition bytes_of_string (s : string) : list Z :=
  map byte_of_ascii (list_ascii_of_string s).

Definition wrap32 (x : Z) : Z := Z.land x 0xFFFFFFFF.
Definition not32 (x : Z) : Z := Z.lxor x 0xFFFFFFFF.
Definition rotl32 (x n : Z) : Z :=
  wrap32 (Z.lor (Z.shiftl x n) (Z.shiftr x (32 - n))).
Definition rotr32 (x n : Z) : Z :=
  wrap32 (Z.lor (Z.shiftr x n) (Z.shiftl x (32 - n))).

Fixpoint le_bytes (k : nat) (n : Z) : list Z :=
  match k with
  | O => []
  | S k' => n mod 256 :: le_bytes k' (n / 256)
  end.

Definition be_bytes (k : nat) (n : Z) : list Z := rev (le_bytes k n).

Definition le_word (bs : list Z) : Z := fold_right (fun b acc => b + 256 * acc) 0 bs.
Definition be_word (bs : list Z) : Z := fold_left (fun acc b => 256 * acc + b) bs 0.

(** [groups k n l]: the first [k] consecutive slices of [l], [n] items each. *)
Fixpoint groups {A} (k n : nat) (l : list A) : list (list A) :=
  match k with
  | O => []
  | S k' => firstn n l :: groups k' n (skipn n l)
  end.

Definition blocks (padded : list Z) : list (list Z) :=
  groups (Nat.div (List.length padded) 64) 64 padded.

(** The message followed by 0x80, zero bytes up to 56 modulo 64, and the
    bit length on 8 bytes. *)
Definition pad (len_bytes : Z -> list Z) (msg : list Z) : list Z :=
  let len := Z.of_nat (List.length msg) in
  msg ++ 128 :: repeat 0 (Z.to_nat ((55 - len) mod 64)) ++ len_bytes (8 * len).

Definition hex_digit (n : Z) : ascii :=
  nth (Z.to_nat n) (list_ascii_of_string "0123456789abcdef") "0"%char.

Definition hex_of_bytes (bs : list Z) : string :=
  string_of_list_ascii
    (flat_map (fun b => [hex_digit (b / 16 mod 16); hex_digit (b mod 16)]) bs).

(** *** MD5 (RFC 1321) *)

Definition md5_K : list Z :=
  [3614090360; 3905402710; 606105819; 3250441966; 4118548399; 1200080426;
   2821735955; 4249261313; 1770035416; 2336552879; 4294925233; 2304563134;
   1804603682; 4254626195; 2792965006; 1236535329; 4129170786; 3225465664;
   643717713; 3921069994; 3593408605; 38016083; 3634488961; 3889429448;
   568446438; 3275163606; 4107603335; 1163531501; 2850285829; 4243563512;
   1735328473; 2368359562; 4294588738; 2272392833; 1839030562; 4259657740;
   2763975236; 1272893353; 4139469664; 3200236656; 681279174; 3936430074;
   3572445317; 76029189; 3654602809; 3873151461; 530742520; 3299628645;
   4096336452; 1126891415; 2878612391; 4237533241; 1700485571; 2399980690;
   4293915773; 2240044497; 1873313359; 4264355552; 2734768916; 1309151649;
   4149444226; 3174756917; 718787259; 3951481745].

Definition md5_S : list Z :=
  [7; 12; 17; 22; 7; 12; 17; 22; 7; 12; 17; 22; 7; 12; 17; 22;
   5; 9; 14; 20; 5; 9; 14; 20; 5; 9; 14; 20; 5; 9; 14; 20;
   4; 11; 16; 23; 4; 11; 16; 23; 4; 11; 16; 23; 4; 11; 16; 23;
   6; 10; 15; 21; 6; 10; 15; 21; 6; 10; 15; 21; 6; 10; 15; 21].

Definition md5_step (M : list Z) (st : Z * Z * Z * Z) (i : nat) : Z * Z * Z * Z :=
  let '(a, b, c, d) := st in
  let '(f, g) :=
    if (i <? 16)%nat then
      (Z.lor (Z.land b c) (Z.land (not32 b) d), i)
    else if (i <? 32)%nat then
      (Z.lor (Z.land d b) (Z.land (not32 d) c), (5 * i + 1) mod 16)%nat
    else if (i <? 48)%nat then
      (Z.lxor (Z.lxor b c) d, (3 * i + 5) mod 16)%nat
    else
      (Z.lxor c (Z.lor b (not32 d)), (7 * i) mod 16)%nat in
  let f' := wrap32 (f + a + nth i md5_K 0 + nth g M 0) in
  (d, wrap32 (b + rotl32 f' (nth i md5_S 0)), b, c).

Definition md5_block (st : Z * Z * Z * Z) (block : list Z) : Z * Z * Z * Z :=
  let M := map le_word (groups 16 4 block) in
  let '(a0, b0, c0, d0) := st in
  let '(a, b, c, d) := fold_left (md5_step M) (seq 0 64) st in
  (wrap32 (a0 + a), wrap32 (b0 + b), wrap32 (c0 + c), wrap32 (d0 + d)).

Definition md5_digest (msg : list Z) : list Z :=
  let '(a, b, c, d) :=
    fold_left md5_block (blocks (pad (le_bytes 8) msg))
      (0x67452301, 0xefcdab89, 0x98badcfe, 0x10325476) in
  flat_map (le_bytes 4) [a; b; c; d].

(** [md5(data).hexdigest()] *)
Definition md5_hexdigest (data : string) : string :=
  hex_of_bytes (md5_digest (bytes_of_string data)).

(** *** SHA-256 (FIPS 180-4) *)

Definition sha256_K : list Z :=
  [1116352408; 1899447441; 3049323471; 3921009573; 961987163; 1508970993;
   2453635748; 2870763221; 3624381080; 310598401; 607225278; 1426881987;
   1925078388; 2162078206; 2614888103; 3248222580; 3835390401; 4022224774;
   264347078; 604807628; 770255983; 1249150122; 1555081692; 1996064986;
   2554220882; 2821834349; 2952996808; 3210313671; 3336571891; 3584528711;
   113926993; 338241895; 666307205; 773529912; 1294757372; 1396182291;
   1695183700; 1986661051; 2177026350; 2456956037; 2730485921; 2820302411;
   3259730800; 3345764771; 3516065817; 3600352804; 4094571909; 275423344;
   430227734; 506948616; 659060556; 883997877; 958139571; 1322822218;
   1537002063; 1747873779; 1955562222; 2024104815; 2227730452; 2361852424;
   2428436474; 2756734187; 3204031479; 3329325298].

Definition sha256_H0 : list Z :=
  [1779033703; 3144134277; 1013904242; 2773480762;
   1359893119; 2600822924; 528734635; 1541459225].

Definition sha256_extend (w : list Z) (i : nat) : list Z :=
  let w15 := nth (i - 15) w 0 in
  let w2 := nth (i - 2) w 0 in
  let s0 := Z.lxor (Z.lxor (rotr32 w15 7) (rotr32 w15 18)) (Z.shiftr w15 3) in
  let s1 := Z.lxor (Z.lxor (rotr32 w2 17) (rotr32 w2 19)) (Z.shiftr w2 10) in
  w ++ [wrap32 (nth (i - 16) w 0 + s0 + nth (i - 7) w 0 + s1)].

Definition sha256_schedule (block : list Z) : list Z :=
  fold_left sha256_extend (seq 16 48) (map be_word (groups 16 4 block)).

Definition sha256_round (w : list Z) (st : list Z) (i : nat) : list Z :=
  match st with
  | [a; b; c; d; e; f; g; h] =>
      let S1 := Z.lxor (Z.lxor (rotr32 e 6) (rotr32 e 11)) (rotr32 e 25) in
      let ch := Z.lxor (Z.land e f) (Z.land (not32 e) g) in
      let t1 := wrap32 (h + S1 + ch + nth i sha256_K 0 + nth i w 0) in
      let S0 := Z.lxor (Z.lxor (rotr32 a 2) (rotr32 a 13)) (rotr32 a 22) in
      let maj := Z.lxor (Z.lxor (Z.land a b) (Z.land a c)) (Z.land b c) in
      let t2 := wrap32 (S0 + maj) in
      [wrap32 (t1 + t2); a; b; c; wrap32 (d + t1); e; f; g]
  | _ => st
  end.

Fixpoint add32 (xs ys : list Z) : list Z :=
  match xs, ys with
  | x :: xs', y :: ys' => wrap32 (x + y) :: add32 xs' ys'
  | _, _ => []
  end.

Definition sha256_block (st : list Z) (block : list Z) : list Z :=
  add32 st (fold_left (sha256_round (sha256_schedule block)) (seq 0 64) st).

Definition sha256_digest (msg : list Z) : list Z :=
  flat_map (be_bytes 4) (fold_left sha256_block (blocks (pad (be_bytes 8) msg)) sha256_H0).

(** [sha256(data).hexdigest()] *)
Definition sha256_hexdigest (data : string) : string :=
  hex_of_bytes (sha256_digest (bytes_of_string data)).

End Hashlib.

(** ** Exceptions and the disk *)

(** The exceptions the program can meet. *)
Inductive exn :=
| FileNotFoundError
| JSONDecodeError
| KeyError (key : string)
| EmptyDataError
| ParserError
| TypeError
| ValueError
| UnboundLocalError (name : string).

(** A Python computation: a value, or a raised exception. *)
Inductive raises (A : Type) :=
| Return (a : A)
| Raise (e : exn).
Arguments Return {A} a.
Arguments Raise {A} e.

Definition bind {A B} (m : raises A) (k : A -> raises B) : raises B :=
  match m with
  | Return a => k a
  | Raise e => Raise e
  end.

Notation "'let!' x ':=' m 'in' k" := (bind m (fun x => k))
  (at level 10, x name, m at level 100, k at level 200).

(** [try: body except Exception as e: handler(e)] *)
Definition try_except {A} (body : raises A) (handler : exn -> A) : A :=
  match body with
  | Return a => a
  | Raise e => handler e
  end.

(** [str(e)] *)
Definition str_exn (e : exn) : string :=
  match e with
  | FileNotFoundError => "No such file or directory"
  | JSONDecodeError => "Expecting value"
  | KeyError k => k
  | EmptyDataError => "No columns to parse from file"
  | ParserError => "Error tokenizing data"
  | TypeError => "unexpected keyword argument"
  | ValueError => "could not parse"
  | UnboundLocalError name =>
      "local variable '" +:+ name +:+ "' referenced before assignment"
  end.

(** One account of the user database, as [json.load] returns it: a dict
    whose keys may be missing. *)
Record account := {
  password : option string;
  is_admin : option bool;
  created_at : option string
}.

(** What the disk holds.  The text of a delimited file is kept as the
    reader splits it, lines of fields ([[]] is a blank line), or as raw bytes
    when it cannot be split at all; the text of a JSON file is kept as the
    user mapping it denotes, or as raw bytes when it does not decode. *)
Inductive csv_text :=
| Lines (lines : list (list string))
| Garbled (raw : string).

Inductive json_text :=
| Document (users : gmap string account)
| Malformed (raw : string).

Record disk := {
  tables : gmap string csv_text;
  documents : gmap string json_text
}.

Definition CSV_FILE : string := "fees_data.csv".
Definition USER_DB_FILE : string := "users.json".

(** [open(path, 'r')] on a JSON file, then reading it whole *)
Definition open_read (fs : disk) (path : string) : raises json_text :=
  match documents fs !! path with
  | Some c => Return c
  | None => Raise FileNotFoundError
  end.

(** [json.load(f)] *)
Definition json_load (c : json_text) : raises (gmap string account) :=
  match c with
  | Document users => Return users
  | Malformed _ => Raise JSONDecodeError
  end.

(** [json.dump(users, f)] on a file opened with ['w'] *)
Definition json_dump (users : gmap string account) (path : string) (fs : disk) : disk :=
  {| tables := tables fs; documents := <[path := Document users]> (documents fs) |}.

(** ** Credential store *)

(** [st.session_state] *)
Record session := {
  authenticated : bool;
  current_user : option string;
  session_is_admin : bool
}.

Definition hash_password (pw : string) : string :=
  Hashlib.sha256_hexdigest pw.

Definition verify_password (stored_password provided_password : string) : bool :=
  String.eqb stored_password (Hashlib.sha256_hexdigest provided_password).

(** [d[key]] on an account field *)
Definition getitem {A} (key : string) (field : option A) : raises A :=
  match field with
  | Some v => Return v
  | None => Raise (KeyError key)
  end.

(** [now] is [datetime.now().strftime("%Y-%m-%d %H:%M:%S")]. *)
Definition initialize_user_db (now : string) (fs : disk) : disk :=
  if negb (bool_decide (is_Some (documents fs !! USER_DB_FILE))) then
    let default_admin : gmap string account :=
      {[ "admin" := {| password := Some (hash_password "admin123");
                       is_admin := Some true;
                       created_at := Some now |} ]} in
    json_dump default_admin USER_DB_FILE fs
  else fs.

Definition authenticate_user (fs : disk) (st : session)
    (username pw : string) : session * bool :=
  try_except
    (let! c := open_read fs USER_DB_FILE in
     let! users := json_load c in
     match users !! username with
     | Some acct =>
         let! stored := getitem "password" (password acct) in
         if verify_password stored pw then
           Return ({| authenticated := true;
                      current_user := Some username;
                      session_is_admin := default false (is_admin acct) |}, true)
         else Return (st, false)
     | None => Return (st, false)
     end)
    (fun _ => (st, false)).

(** [now] is [datetime.now().strftime("%Y-%m-%d %H:%M:%S")]. *)
Definition create_user (fs : disk) (now : string)
    (username pw : string) (admin : bool)
    : disk * (bool * string) :=
  try_except
    (let! users := (if bool_decide (is_Some (documents fs !! USER_DB_FILE))
                     then let! c := open_read fs USER_DB_FILE in json_load c
                     else Return ∅) in
     match users !! username with
     | Some _ => Return (fs, (false, "Username already exists"))
     | None =>
         let users' :=
           <[username := {| password := Some (hash_password pw);
                            is_admin := Some admin;
                            created_at := Some now |}]> users in
         Return (json_dump users' USER_DB_FILE fs, (true, "User created successfully"))
     end)
    (fun e => (fs, (false, "Error creating user: " +:+ str_exn e))).

(** What a button handler shows: [st.error], [st.warning] or [st.success]. *)
Inductive message :=
| st_error (text : string)
| st_warning (text : string)
| st_success (text : string).

(** The handler of the "Delete User" button in [user_management]. *)
Definition delete_user (fs : disk) (st : session)
    (user_to_delete : string) : disk * message :=
  if bool_decide (Some user_to_delete = current_user st) then
    (fs, st_error "You cannot delete your own account!")
  else if String.eqb user_to_delete "admin" then
    (fs, st_error "Cannot delete the default admin account!")
  else
    try_except
      (let! c := open_read fs USER_DB_FILE in
       let! users := json_load c in
       match users !! user_to_delete with
       | Some _ =>
           Return (json_dump (delete user_to_delete users) USER_DB_FILE fs,
                   st_success ("User '" +:+ user_to_delete +:+ "' deleted successfully!"))
       | None => Return (fs, st_error "User not found!")
       end)
      (fun e => (fs, st_error ("Error deleting user: " +:+ str_exn e))).

(** The outcome of a deletion in the words of the specification. *)
Inductive delete_result := Deleted | Protected | NotFound | Failed.

Definition delete_result_of (m : message) : delete_result :=
  match m with
  | st_success _ => Deleted
  | st_error "You cannot delete your own account!" => Protected
  | st_error "Cannot delete the default admin account!" => Protected
  | st_error "User not found!" => NotFound
  | _ => Failed
  end.

(** ** Identity generator *)

(** [str.upper()] on the ASCII letters. *)
Definition upper_ascii (c : ascii) : ascii :=
  let n := nat_of_ascii c in
  if (97 <=? n)%nat && (n <=? 122)%nat then ascii_of_nat (n - 32) else c.

Fixpoint upper (s : string) : string :=
  match s with
  | EmptyString => EmptyString
  | String c s' => String (upper_ascii c) (upper s')
  end.

(** [s[:n]] *)
Fixpoint slice_to (n : nat) (s : string) : string :=
  match n, s with
  | S n', String c s' => String c (slice_to n' s')
  | _, _ => EmptyString
  end.

Definition generate_student_id (student_name class_category : string) : string :=
  let unique_str := student_name +:+ "_" +:+ class_category in
  upper (slice_to 8 (Hashlib.md5_hexdigest unique_str)).

(** ** pandas: data frames, the CSV reader and writer, dates *)

(** A value of a frame: [NaN], an integer or a text. *)
Inductive cell :=
| NaN
| Num (n : Z)
| Str (s : string).

#[global] Instance cell_eq_dec : EqDecision cell.
Proof. solve_decision. Defined.

(** A frame: its column labels and its rows, one cell per column. *)
Record DataFrame := {
  columns : list string;
  rows : list (list cell)
}.

(** [pd.DataFrame()] *)
Definition empty_frame : DataFrame := {| columns := []; rows := [] |}.

(** [pd.DataFrame(columns=cols)] *)
Definition frame_of_columns (cols : list string) : DataFrame :=
  {| columns := cols; rows := [] |}.

(** The texts the reader takes for a missing value. *)
Definition na_values : list string :=
  [EmptyString; "#N/A"; "#N/A N/A"; "#NA"; "-1.#IND"; "-1.#QNAN"; "-NaN"; "-nan";
   "1.#IND"; "1.#QNAN"; "<NA>"; "N/A"; "NA"; "NULL"; "NaN"; "None"; "n/a";
   "nan"; "null"].

Definition int_of_str (s : string) : option Z :=
  option_map Z.of_int (DecimalString.NilZero.int_of_string s).

Definition str_of_int (n : Z) : string :=
  DecimalString.NilZero.string_of_int (Z.to_int n).

(** How the reader types one field. *)
Definition parse_field (s : string) : cell :=
  if bool_decide (s ∈ na_values) then NaN
  else match int_of_str s with
       | Some n => Num n
       | None => Str s
       end.

(** How the writer prints one cell ([na_rep] is the empty text). *)
Definition print_cell (c : cell) : string :=
  match c with
  | NaN => EmptyString
  | Num n => str_of_int n
  | Str s => s
  end.

Definition is_blank (line : list string) : bool :=
  match line with
  | [] => true
  | _ => false
  end.

(** A data line as a row of [width] cells: short lines are filled with [NaN]. *)
Definition parse_line (width : nat) (line : list string) : list cell :=
  map parse_field line ++ repeat NaN (width - List.length line).

(** [pd.read_csv(path)] on the text of the file: blank lines are skipped,
    the first line is the header, a line with more fields than the header
    is an error. *)
Definition read_lines (lines : list (list string)) : raises DataFrame :=
  match filter (fun l => negb (is_blank l)) lines with
  | [] => Raise EmptyDataError
  | header :: data =>
      if forallb (fun l => (List.length l <=? List.length header)%nat) data
      then Return {| columns := header;
                     rows := map (parse_line (List.length header)) data |}
      else Raise ParserError
  end.

Definition read_csv (fs : disk) (path : string) : raises DataFrame :=
  match tables fs !! path with
  | None => Raise FileNotFoundError
  | Some (Garbled _) => Raise ParserError
  | Some (Lines lines) => read_lines lines
  end.

(** [pd.read_csv(path, error_bad_lines=False)]: where the reader still has
    the option ([legacy]), lines with too many fields are dropped; elsewhere
    the keyword is refused. *)
Definition read_csv_skip_bad_lines (legacy : bool) (fs : disk) (path : string)
    : raises DataFrame :=
  if legacy then
    match tables fs !! path with
    | None => Raise FileNotFoundError
    | Some (Garbled _) => Raise ParserError
    | Some (Lines lines) =>
        match filter (fun l => negb (is_blank l)) lines with
        | [] => Raise EmptyDataError
        | header :: data =>
            read_lines
              (header :: filter (fun l => (List.length l <=? List.length header)%nat) data)
        end
    end
  else Raise TypeError.

(** [df.to_csv(path, index=False)] *)
Definition to_lines (df : DataFrame) : list (list string) :=
  columns df :: map (map print_cell) (rows df).

Definition to_csv (df : DataFrame) (path : string) (fs : disk) : disk :=
  {| tables := <[path := Lines (to_lines df)]> (tables fs); documents := documents fs |}.

Fixpoint index_of (col : string) (cols : list string) : option nat :=
  match cols with
  | [] => None
  | c :: cols' => if String.eqb c col then Some O else S <$> index_of col cols'
  end.

(** [row[col]].  A label the frame does not have reads as [NaN]: the
    frames of the reports come from [load_data], which gives every frame
    it reads the twelve labels. *)
Definition loc (cols : list string) (row : list cell) (col : string) : cell :=
  match index_of col cols with
  | Some i => nth i row NaN
  | None => NaN
  end.

(** [df[col]] *)
Definition getitem_col (df : DataFrame) (col : string) : raises (list cell) :=
  match index_of col (columns df) with
  | Some i => Return (map (fun r => nth i r NaN) (rows df))
  | None => Raise (KeyError col)
  end.

(** [df[col] = values]: replaces the column, or appends it as the last one. *)
Definition setitem_col (df : DataFrame) (col : string) (values : list cell) : DataFrame :=
  match index_of col (columns df) with
  | Some i =>
      {| columns := columns df;
         rows := zip_with (fun r v => <[i := v]> r) (rows df) values |}
  | None =>
      {| columns := columns df ++ [col];
         rows := zip_with (fun r v => r ++ [v]) (rows df) values |}
  end.

(** [df[col] = np.nan] *)
Definition setitem_nan (df : DataFrame) (col : string) : DataFrame :=
  setitem_col df col (repeat NaN (List.length (rows df))).

(** [df.dropna(how='all')] *)
Definition is_nan (c : cell) : bool :=
  match c with
  | NaN => true
  | _ => false
  end.

Definition dropna_all (df : DataFrame) : DataFrame :=
  {| columns := columns df;
     rows := filter (fun r => negb (forallb is_nan r)) (rows df) |}.

(** *** Dates *)

Record datetime := {
  year : nat; month : nat; day : nat;
  hour : nat; minute : nat; second : nat
}.

Definition is_leap (y : nat) : bool :=
  (y mod 4 =? 0)%nat && (negb (y mod 100 =? 0)%nat || (y mod 400 =? 0)%nat).

Definition days_in_month (y m : nat) : nat :=
  match m with
  | 1 | 3 | 5 | 7 | 8 | 10 | 12 => 31
  | 4 | 6 | 9 | 11 => 30
  | 2 => if is_leap y then 29 else 28
  | _ => 0
  end.

(** A calendar date inside the years a timestamp can hold. *)
Definition valid_date (y m d : nat) : bool :=
  (1678 <=? y)%nat && (y <=? 2261)%nat && (1 <=? m)%nat && (m <=? 12)%nat
  && (1 <=? d)%nat && (d <=? days_in_month y m)%nat.

Definition valid_time (h mi s : nat) : bool :=
  (h <? 24)%nat && (mi <? 60)%nat && (s <? 60)%nat.

Definition digit (c : ascii) : option nat :=
  let n := nat_of_ascii c in
  if (48 <=? n)%nat && (n <=? 57)%nat then Some (n - 48)%nat else None.

Definition num2 (a b : ascii) : option nat :=
  x ← digit a; y ← digit b; Some (10 * x + y)%nat.

Definition num4 (a b c d : ascii) : option nat :=
  x ← num2 a b; y ← num2 c d; Some (100 * x + y)%nat.

Definition is_sep (c : ascii) : bool :=
  Ascii.eqb c "-" || Ascii.eqb c "/".

(** The time of day after the date: nothing, [ HH:MM] or [ HH:MM:SS]. *)
Definition parse_time (tl : list ascii) : option (nat * nat * nat) :=
  match tl with
  | [] => Some (0, 0, 0)%nat
  | sp :: h1 :: h2 :: c1 :: m1 :: m2 :: tl' =>
      if Ascii.eqb sp " " && Ascii.eqb c1 ":" then
        h ← num2 h1 h2; mi ← num2 m1 m2;
        s ← match tl' with
            | [] => Some O
            | [c2; s1; s2] => if Ascii.eqb c2 ":" then num2 s1 s2 else None
            | _ => None
            end;
        if valid_time h mi s then Some (h, mi, s) else None
      else None
  | _ => None
  end.

Definition make_date (t : nat * nat * nat) (y m d : nat) : option datetime :=
  if valid_date y m d then
    Some {| year := y; month := m; day := d;
            hour := t.1.1; minute := t.1.2; second := t.2 |}
  else None.

(** One text read as a date, element by element: [YYYY-MM-DD] or a
    two-two-four form, read day first or month first as asked and the other
    way round when that is no date; an optional time of day follows. *)
Definition parse_datetime (dayfirst : bool) (s : string) : option datetime :=
  match list_ascii_of_string s with
  | c0 :: c1 :: c2 :: c3 :: c4 :: c5 :: c6 :: c7 :: c8 :: c9 :: tl =>
      t ← parse_time tl;
      if is_sep c2 && is_sep c5 then
        a ← num2 c0 c1; b ← num2 c3 c4; y ← num4 c6 c7 c8 c9;
        if dayfirst
        then from_option Some (make_date t y a b) (make_date t y b a)
        else from_option Some (make_date t y b a) (make_date t y a b)
      else if is_sep c4 && is_sep c7 then
        y ← num4 c0 c1 c2 c3; m ← num2 c5 c6; d ← num2 c8 c9;
        make_date t y m d
      else None
  | _ => None
  end.

(** [pd.to_datetime(column, dayfirst=.., errors=..)]: a missing value is
    [NaT]; a text that is no date raises, or is [NaT] under
    [errors='coerce'].  The model reads dates from text only. *)
Definition to_datetime_cell (dayfirst coerce : bool) (c : cell)
    : raises (option datetime) :=
  match c with
  | NaN => Return None
  | Str s =>
      match parse_datetime dayfirst s with
      | Some d => Return (Some d)
      | None => if coerce then Return None else Raise ValueError
      end
  | Num _ => if coerce then Return None else Raise TypeError
  end.

Fixpoint to_datetime (dayfirst coerce : bool) (col : list cell)
    : raises (list (option datetime)) :=
  match col with
  | [] => Return []
  | c :: col' =>
      let! d := to_datetime_cell dayfirst coerce c in
      let! ds := to_datetime dayfirst coerce col' in
      Return (d :: ds)
  end.

Definition digit_char (n : nat) : ascii := ascii_of_nat (48 + n mod 10).

Definition fmt2 (n : nat) : list ascii := [digit_char (n / 10); digit_char n].

Definition fmt4 (n : nat) : list ascii := fmt2 (n / 100) ++ fmt2 n.

(** The two formats of the program: ['%d-%m-%Y'] and ['%d-%m-%Y %H:%M']. *)
Inductive date_format := DMY | DMY_HM.

Definition strftime (fmt : date_format) (d : datetime) : string :=
  let date := fmt2 (day d) ++ "-"%char :: fmt2 (month d) ++ "-"%char :: fmt4 (year d) in
  string_of_list_ascii
    match fmt with
    | DMY => date
    | DMY_HM => date ++ " "%char :: fmt2 (hour d) ++ ":"%char :: fmt2 (minute d)
    end.

(** [series.dt.strftime(fmt)] *)
Definition dt_strftime (fmt : date_format) (ds : list (option datetime)) : list cell :=
  map (fun d => match d with Some d' => Str (strftime fmt d') | None => NaN end) ds.

(** ** Record store *)

Definition expected_columns : list string :=
  ["ID"; "Student Name"; "Class Category"; "Class Section"; "Month";
   "Monthly Fee"; "Annual Charges"; "Admission Fee";
   "Received Amount"; "Date"; "Signature"; "Entry Timestamp"].

(** [for col in expected_columns: if col not in df.columns: df[col] = np.nan] *)
Definition add_missing_columns (df : DataFrame) : DataFrame :=
  fold_left
    (fun df col => if bool_decide (col ∈ columns df) then df else setitem_nan df col)
    expected_columns df.

(** In the handler of [initialize_csv], [expected_columns] is a local name
    that is bound after the read: when the read is what raised, the handler
    itself raises. *)
Definition initialize_csv (fs : disk) : raises disk :=
  if negb (bool_decide (is_Some (tables fs !! CSV_FILE))) then
    Return (to_csv (frame_of_columns expected_columns) CSV_FILE fs)
  else
    match read_csv fs CSV_FILE with
    | Return df => Return (to_csv (add_missing_columns df) CSV_FILE fs)
    | Raise _ => Raise (UnboundLocalError "expected_columns")
    end.

(** The two attempts of [load_data] on a date column: day first and strict,
    then, whatever the first one raised, lenient. *)
Definition format_dates (df : DataFrame) (col : string) (fmt : date_format)
    : raises DataFrame :=
  match
    (let! c := getitem_col df col in
     let! ds := to_datetime true false c in
     Return (setitem_col df col (dt_strftime fmt ds)))
  with
  | Return df' => Return df'
  | Raise _ =>
      let! c := getitem_col df col in
      let! ds := to_datetime false true c in
      Return (setitem_col df col (dt_strftime fmt ds))
  end.

Definition load_data (legacy : bool) (fs : disk) : DataFrame :=
  if negb (bool_decide (is_Some (tables fs !! CSV_FILE))) then empty_frame
  else
    match read_csv fs CSV_FILE with
    | Raise EmptyDataError => empty_frame
    | first_read =>
        try_except
          (let! df := match first_read with
                      | Raise ParserError => read_csv_skip_bad_lines legacy fs CSV_FILE
                      | _ => first_read
                      end in
           let df := add_missing_columns df in
           let! df := format_dates df "Date" DMY in
           let! df := format_dates df "Entry Timestamp" DMY_HM in
           Return (dropna_all df))
          (fun _ => empty_frame)
    end.

Definition update_data (updated_df : DataFrame) (fs : disk) : disk * bool :=
  (to_csv updated_df CSV_FILE fs, true).

(** [shutil.copyfile(src, dst)] *)
Definition copyfile (src dst : string) (fs : disk) : disk :=
  match tables fs !! src with
  | Some c => {| tables := <[dst := c]> (tables fs); documents := documents fs |}
  | None => fs
  end.

(** The handler of the "Reinitialize CSV File" button; [stamp] is
    [datetime.now().strftime('%Y%m%d_%H%M%S')]. *)
Definition backup_name (stamp : string) : string := "backup_" +:+ stamp +:+ ".csv".

Definition reinitialize (stamp : string) (fs : disk) : disk * list message :=
  let backup_file := backup_name stamp in
  let '(fs1, shown) :=
    if bool_decide (is_Some (tables fs !! CSV_FILE))
    then (copyfile CSV_FILE backup_file fs,
          [st_warning ("Created backup: " +:+ backup_file)])
    else (fs, []) in
  match initialize_csv fs1 with
  | Return fs2 => (fs2, shown ++ [st_success "CSV file reinitialized successfully"])
  | Raise e => (fs1, shown ++ [st_error ("Error: " +:+ str_exn e)])
  end.

(** ** Report engine *)

Definition months : list string :=
  ["APRIL"; "MAY"; "JUNE"; "JULY"; "AUGUST"; "SEPTEMBER";
   "OCTOBER"; "NOVEMBER"; "DECEMBER"; "JANUARY"; "FEBRUARY"; "MARCH"].

(** [series.sum()]: missing values are skipped. *)
Definition series_sum (cs : list cell) : Z :=
  fold_right (fun c acc => match c with Num n => (n + acc)%Z | _ => acc end) 0%Z cs.

(** [series.unique()] without the missing value, and [series.nunique()] *)
Definition unique (cs : list cell) : list cell :=
  remove_dups (filter (fun c => negb (is_nan c)) cs).

Definition nunique (cs : list cell) : nat := List.length (unique cs).

(** [df[df[col] == value]] *)
Definition select_eq (df : DataFrame) (col : string) (value : cell) : DataFrame :=
  {| columns := columns df;
     rows := filter (fun r => bool_decide (loc (columns df) r col = value)) (rows df) |}.

Definition series (df : DataFrame) (col : string) : list cell :=
  map (fun r => loc (columns df) r col) (rows df).

(** The order in which group keys are sorted: numbers, then texts in the
    order of their characters. *)
Definition cell_le (a b : cell) : Prop :=
  match a, b with
  | NaN, _ => True
  | _, NaN => False
  | Num x, Num y => (x <= y)%Z
  | Num _, Str _ => True
  | Str _, Num _ => False
  | Str x, Str y => String.le x y
  end.

#[global] Instance cell_le_dec : RelDecision cell_le.
Proof. intros [| x | x] [| y | y]; simpl; apply _. Defined.

(** [df.groupby(key)[value].sum().reset_index()]: one entry per key, the
    keys sorted. *)
Definition groupby_sum (df : DataFrame) (key value : string) : list (cell * Z) :=
  map (fun k => (k, series_sum (series (select_eq df key k) value)))
      (merge_sort cell_le (unique (series df key))).

Record class_summary := {
  total_students : nat;
  total_received : Z;
  unpaid_students : nat;
  monthly_summary : list (cell * Z)
}.

(** The summary under the tab of one class in "View All Records"; nothing
    is shown for a class without rows. *)
Definition classSummary (df : DataFrame) (category : string) : option class_summary :=
  let class_df := select_eq df "Class Category" (Str category) in
  match rows class_df with
  | [] => None
  | _ =>
      Some {| total_students := nunique (series class_df "Student Name");
              total_received := series_sum (series class_df "Received Amount");
              unpaid_students :=
                nunique (series (select_eq class_df "Monthly Fee" (Num 0)) "Student Name");
              monthly_summary := groupby_sum class_df "Month" "Received Amount" |}
  end.

Record month_line := {
  line_month : string;
  line_monthly_fee : Z;
  line_received : Z;
  line_status : string
}.

Record yearly_report := {
  total_monthly_fee : Z;
  annual_charges : cell;
  admission_fee : cell;
  report_total_received : Z;
  monthly_report : list month_line
}.

(** [df.groupby(key).agg({v1: 'sum', v2: 'sum'}).reset_index()] *)
Definition groupby_agg (df : DataFrame) (key v1 v2 : string) : list (cell * Z * Z) :=
  map (fun k => let group := select_eq df key k in
                (k, series_sum (series group v1), series_sum (series group v2)))
      (merge_sort cell_le (unique (series df key))).

(** [pd.DataFrame({'Month': all_months}).merge(monthly_data, on='Month',
    how='left')]: every month once for each entry of its key, or once with
    missing values. *)
Definition merge_left (all_months : list string) (monthly_data : list (cell * Z * Z))
    : list (string * option Z * option Z) :=
  flat_map
    (fun m =>
       match filter (fun e => bool_decide (e.1.1 = Str m)) monthly_data with
       | [] => [(m, None, None)]
       | found => map (fun e => (m, Some e.1.2, Some e.2)) found
       end)
    all_months.

(** [fillna(0)] on one value *)
Definition fillna0 (c : option Z) : Z := default 0%Z c.

(** The report of "Student Yearly Report"; nothing is computed when the
    student has no rows in the class. *)
Definition studentYearlyReport (df : DataFrame) (selected_student selected_class : string)
    : option yearly_report :=
  let student_data :=
    {| columns := columns df;
       rows := filter
                 (fun r => bool_decide (loc (columns df) r "Student Name" = Str selected_student)
                           && bool_decide (loc (columns df) r "Class Category" = Str selected_class))
                 (rows df) |} in
  match rows student_data with
  | [] => None
  | first :: _ =>
      let monthly_data :=
        groupby_agg student_data "Month" "Monthly Fee" "Received Amount" in
      let merged := merge_left months monthly_data in
      Some {| total_monthly_fee := series_sum (series student_data "Monthly Fee");
              annual_charges :=
                if bool_decide ("Annual Charges" ∈ columns df)
                then loc (columns df) first "Annual Charges" else Num 0;
              admission_fee :=
                if bool_decide ("Admission Fee" ∈ columns df)
                then loc (columns df) first "Admission Fee" else Num 0;
              report_total_received := series_sum (series student_data "Received Amount");
              monthly_report :=
                map (fun '(m, fee, received) =>
                       {| line_month := m;
                          line_monthly_fee := fillna0 fee;
                          line_received := fillna0 received;
                          line_status :=
                            if (0 <? fillna0 fee)%Z then "Paid" else "Unpaid" |})
                    merged |}
  end.

(** ** The words of the specification *)

(** The account stored under a user name, when the store decodes and has one. *)
Definition stored_account (fs : disk) (username : string) : option account :=
  match documents fs !! USER_DB_FILE with
  | Some (Document users) => users !! username
  | _ => None
  end.

(** What the store decodes to, when it does. *)
Definition stored_users (fs : disk) : option (gmap string account) :=
  match documents fs !! USER_DB_FILE with
  | Some (Document users) => Some users
  | _ => None
  end.

(** An upper-case hexadecimal digit. *)
Definition is_upper_hex (c : ascii) : bool :=
  bool_decide (c ∈ list_ascii_of_string "0123456789ABCDEF").

(** The rows of a class, and the sum of a column over those of one month. *)
Definition class_rows (df : DataFrame) (category : string) : list (list cell) :=
  filter (fun r => bool_decide (loc (columns df) r "Class Category" = Str category))
         (rows df).

Definition received_in_month (df : DataFrame) (category : string) (m : cell) : Z :=
  series_sum
    (map (fun r => loc (columns df) r "Received Amount")
         (filter (fun r => bool_decide (loc (columns df) r "Month" = m))
                 (class_rows df category))).

(** The monthly series as the specification words it: the twelve months of
    the academic calendar, April first, each with its sum. *)
Definition calendar_series (df : DataFrame) (category : string) : list (cell * Z) :=
  map (fun m => (Str m, received_in_month df category (Str m))) months.

(** [keys] occur in the order of the calendar [cal]. *)
Fixpoint in_calendar_order (keys : list cell) (cal : list string) : bool :=
  match cal, keys with
  | _, [] => true
  | [], _ :: _ => false
  | m :: cal', k :: keys' =>
      if bool_decide (k = Str m) then in_calendar_order keys' cal'
      else in_calendar_order keys cal'
  end.

(** A student of a class is unpaid when a row of the class under that name
    has a monthly fee of zero. *)
Definition is_unpaid (df : DataFrame) (category : string) (name : cell) : Prop :=
  name ≠ NaN /\
  exists r, r ∈ rows df
            /\ loc (columns df) r "Class Category" = Str category
            /\ loc (columns df) r "Student Name" = name
            /\ loc (columns df) r "Monthly Fee" = Num 0.

(** The rows of a student in a class, and the sum of a column over those
    of one month. *)
Definition student_rows (df : DataFrame) (student category : string) : list (list cell) :=
  filter (fun r => bool_decide (loc (columns df) r "Student Name" = Str student)
                   && bool_decide (loc (columns df) r "Class Category" = Str category))
         (rows df).

Definition sum_in_month (df : DataFrame) (student category col m : string) : Z :=
  series_sum
    (map (fun r => loc (columns df) r col)
         (filter (fun r => bool_decide (loc (columns df) r "Month" = Str m))
                 (student_rows df student category))).

(** The line of a month in the yearly report, as the specification words
    it: the sums of the month, tagged "Paid" when the fee summed is
    positive. *)
Definition month_line_of (df : DataFrame) (student category m : string) : month_line :=
  let fee := sum_in_month df student category "Monthly Fee" m in
  {| line_month := m;
     line_monthly_fee := fee;
     line_received := sum_in_month df student category "Received Amount" m;
     line_status := if (0 <? fee)%Z then "Paid" else "Unpaid" |}.

(** A frame with the twelve columns in the order of the store. *)
Definition frame_of_rows (rs : list (list cell)) : DataFrame :=
  {| columns := expected_columns; rows := rs |}.

(** A row as "Enter Fees" writes it and [load_data] reads it back. *)
Definition fee_row (name category month : string) (fee received : Z) : list cell :=
  [Str (generate_student_id name category); Str name; Str category; NaN; Str month;
   Num fee; Num 0; Num 0; Num received;
   Str "05-04-2024"; Str "Clerk"; Str "05-04-2024 09:30"].

(** A date and time of day that a timestamp can hold. *)
Definition valid_datetime (d : datetime) : bool :=
  valid_date (year d) (month d) (day d) && valid_time (hour d) (minute d) (second d).

(** A cell of a date column once [load_data] has formatted it. *)
Definition formatted (fmt : date_format) (c : cell) : Prop :=
  c = NaN \/ exists d, valid_datetime d = true /\ c = Str (strftime fmt d).

(** A cell that the writer prints to a text the reader types back to it. *)
Definition canonical (c : cell) : Prop := parse_field (print_cell c) = c.

(** What [format_dates] writes for one cell of the column, by the attempt
    that went through: day first, or lenient. *)
Definition format_cell (fmt : date_format) (dayfirst : bool) (c : cell) : cell :=
  match c with
  | Str s =>
      match parse_datetime dayfirst s with
      | Some d => Str (strftime fmt d)
      | None => NaN
      end
  | _ => NaN
  end.

(** A row whose cell [i] has been formatted as a date. *)
Definition reformat (i : nat) (fmt : date_format) (dayfirst : bool) (r : list cell)
    : list cell :=
  <[i := format_cell fmt dayfirst (nth i r NaN)]> r.

(** A row of the store as [load_data] returns it: filled up to the columns
    added, its two date cells formatted. *)
Definition loaded_row (added i1 i2 : nat) (m1 m2 : bool) (r : list cell) : list cell :=
  reformat i2 DMY_HM m2 (reformat i1 DMY m1 (r ++ repeat NaN added)).

(** The labels of [wanted] that [cols] lacks, in their order. *)
Fixpoint missing_columns (cols wanted : list string) : list string :=
  match wanted with
  | [] => []
  | c :: wanted' =>
      if bool_decide (c ∈ cols) then missing_columns cols wanted'
      else c :: missing_columns (cols ++ [c]) wanted'
  end.

(** What the reads of [load_data] make of the store: the frame of the first
    read, or of the second one after a parser error. *)
Definition first_frame (legacy : bool) (fs : disk) : option DataFrame :=
  match read_csv fs CSV_FILE with
  | Return df => Some df
  | Raise ParserError =>
      match read_csv_skip_bad_lines legacy fs CSV_FILE with
      | Return df => Some df
      | Raise _ => None
      end
  | Raise _ => None
  end.

(** A frame as [load_data] returns it from a store that was read. *)
Record loaded (df : DataFrame) : Prop := {
  loaded_columns : forall col, col ∈ expected_columns -> col ∈ columns df;
  loaded_width : Forall (fun r => List.length r = List.length (columns df)) (rows df);
  loaded_cells : Forall (Forall canonical) (rows df);
  loaded_rows : Forall (fun r => forallb is_nan r = false) (rows df);
  loaded_date : Forall (fun r => formatted DMY (loc (columns df) r "Date")) (rows df);
  loaded_stamp :
    Forall (fun r => formatted DMY_HM (loc (columns df) r "Entry Timestamp")) (rows df)
}.

(** ** The forms and their handlers *)

(** What a handler shows besides its messages: [st.info]. *)
Inductive notice :=
| Shown (m : message)
| st_info (text : string).

(** [initialize_files()]: the record store first; when that raises, the
    user database is not reached. *)
Definition initialize_files (now : string) (fs : disk) : raises disk :=
  let! fs1 := initialize_csv fs in
  Return (initialize_user_db now fs1).

(** The handler of the "Create User" form in [user_management]. *)
Definition create_user_submit (now : string) (fs : disk)
    (new_username new_password confirm_password : string) (admin : bool)
    : disk * list notice :=
  if String.eqb new_username EmptyString || String.eqb new_password EmptyString then
    (fs, [Shown (st_error "Username and password are required!")])
  else if negb (String.eqb new_password confirm_password) then
    (fs, [Shown (st_error "Passwords do not match")])
  else
    let '(fs', (success, text)) := create_user fs now new_username new_password admin in
    if success then
      (fs', [Shown (st_success text);
             st_info ("User '" +:+ new_username +:+ "' created with password: "
                      +:+ new_password)])
    else (fs', [Shown (st_error text)]).

(** The handler of the "Reset Password" form in [user_management], for the
    user picked in the select box. *)
Definition reset_password (fs : disk) (selected_user new_password confirm_password : string)
    : disk * list notice :=
  try_except
    (let! c := open_read fs USER_DB_FILE in
     let! users := json_load c in
     if String.eqb new_password EmptyString then
       Return (fs, [Shown (st_error "Password cannot be empty!")])
     else if negb (String.eqb new_password confirm_password) then
       Return (fs, [Shown (st_error "Passwords do not match!")])
     else
       match users !! selected_user with
       | Some acct =>
           let acct' := {| password := Some (hash_password new_password);
                           is_admin := is_admin acct;
                           created_at := created_at acct |} in
           Return (json_dump (<[selected_user := acct']> users) USER_DB_FILE fs,
                   [Shown (st_success ("Password for " +:+ selected_user
                                       +:+ " reset successfully!"));
                    st_info ("New password: " +:+ new_password)])
       | None => Raise (KeyError selected_user)
       end)
    (fun e => (fs, [Shown (st_error ("Error resetting password: " +:+ str_exn e))])).

(** The "Logout" button. *)
Definition logout : session :=
  {| authenticated := false; current_user := None; session_is_admin := false |}.














(** [format(n, ',')] on the digits of a number, written backwards: a comma
    after every third digit that has a digit after it. *)
Fixpoint group_thousands (rev_digits : list ascii) : list ascii :=
  match rev_digits with
  | a :: l1 =>
      match l1 with
      | b :: l2 =>
          match l2 with
          | c :: l3 =>
              match l3 with
              | [] => rev_digits
              | _ :: _ => a :: b :: c :: ","%char :: group_thousands l3
              end
          | [] => rev_digits
          end
      | [] => rev_digits
      end
  | [] => []
  end.

(** [f"{n:,}"] *)
Definition format_thousands (n : Z) : string :=
  let digits := list_ascii_of_string (str_of_int (Z.abs n)) in
  let grouped := string_of_list_ascii (rev (group_thousands (rev digits))) in
  if (n <? 0)%Z then String "-" grouped else grouped.

(** [format_currency(val)] on a number or a missing value ([None]). *)
Definition format_currency (val : option Z) : string :=
  match val with
  | Some n => if (n =? 0)%Z then "Rs. 0" else "Rs. " +:+ format_thousands n
  | None => "Rs. 0"
  end.

(** The value a cell adds to a sum. *)
Definition cell_value (c : cell) : Z :=
  match c with
  | Num n => n
  | _ => 0%Z
  end.



(** The entries of the menu of [main_app]. *)
Definition menu_options (st : session) : list string :=
  if session_is_admin st
  then ["Enter Fees"; "View All Records"; "Student Yearly Report"; "User Management";
        "System Tools"]
  else ["Enter Fees"; "View All Records"; "Student Yearly Report"].

(** The sum of a list of amounts. *)
Definition sumZ (l : list Z) : Z := fold_right Z.add 0%Z l.

(** The sum of a column over the rows of a student whose month is none of
    the calendar. *)
Definition off_calendar (df : DataFrame) (student category col : string) : Z :=
  series_sum
    (map (fun r => loc (columns df) r col)
         (filter (fun r => loc (columns df) r "Month" ∉ map Str months)
                 (student_rows df student category))).

(** A text without its commas. *)
Definition strip_commas (s : string) : string :=
  string_of_list_ascii (filter (fun c => c <> ","%char) (list_ascii_of_string s)).

(** The character at place [i] of a text, counted from its end. *)
Definition from_end (s : string) (i : nat) : ascii :=
  nth i (rev (list_ascii_of_string s)) "0"%char.

(** * Properties *)

(** ** hashlib against its published test vectors *)

Example md5_empty :
  Hashlib.md5_hexdigest EmptyString = "d41d8cd98f00b204e9800998ecf8427e".
Proof. vm_compute. reflexivity. Qed.

Example md5_abc : Hashlib.md5_hexdigest "abc" = "900150983cd24fb0d6963f7d28e17f72".
Proof. vm_compute. reflexivity. Qed.

Example md5_two_blocks :
  Hashlib.md5_hexdigest
    "aaaaaaaaaaaaaaaaaaaaaaaaaaaaaaaaaaaaaaaaaaaaaaaaaaaaaaaaaaaaaaaa"
  = "014842d480b571495a4a0363793f7367".
Proof. vm_compute. reflexivity. Qed.

Example sha256_empty :
  Hashlib.sha256_hexdigest EmptyString
  = "e3b0c44298fc1c149afbf4c8996fb92427ae41e4649b934ca495991b7852b855".
Proof. vm_compute. reflexivity. Qed.

Example sha256_abc :
  Hashlib.sha256_hexdigest "abc"
  = "ba7816bf8f01cfea414140de5dae2223b00361a396177a9cb410ff61f20015ad".
Proof. vm_compute. reflexivity. Qed.

Example sha256_two_blocks :
  Hashlib.sha256_hexdigest
    "aaaaaaaaaaaaaaaaaaaaaaaaaaaaaaaaaaaaaaaaaaaaaaaaaaaaaaaaaaaaaaaa"
  = "ffe054fe7ae0cb6dc65c3af9b61d5209f439851db43d0ba5997337df154668eb".
Proof. vm_compute. reflexivity. Qed.

(** The password of the bootstrap account. *)
Example hash_password_admin123 :
  hash_password "admin123"
  = "240be518fabd2724ddb6f04eeb1da5967448d7e831c08c8fa822809f74c720a9".
Proof. vm_compute. reflexivity. Qed.

(** ** Credential store *)

Lemma verify_password_spec (stored pw : string) :
  verify_password stored pw = true <-> stored = hash_password pw.
Proof. unfold verify_password, hash_password. apply String.eqb_eq. Qed.

Lemma authenticate_user_unfold (fs : disk) (st : session) (username pw : string) :
  authenticate_user fs st username pw =
  match stored_account fs username with
  | Some acct =>
      match password acct with
      | Some stored =>
          if verify_password stored pw then
            ({| authenticated := true;
                current_user := Some username;
                session_is_admin := default false (is_admin acct) |}, true)
          else (st, false)
      | None => (st, false)
      end
  | None => (st, false)
  end.
Proof.
  unfold authenticate_user, stored_account, open_read.
  destruct (documents fs !! USER_DB_FILE) as [[users | raw] |]; simpl; try reflexivity.
  destruct (users !! username) as [acct |]; simpl; try reflexivity.
  destruct (password acct) as [stored |]; simpl; try reflexivity.
  destruct (verify_password stored pw); reflexivity.
Qed.

(** C7. [authenticate_user] answers [true] exactly when the user name has
    an account in the store whose stored hash is the hash of the password;
    for a user name without an account it answers [false] whatever the
    password, as a value (no exception leaves the function), and it leaves
    the session as it was. *)
Theorem authenticate_user_iff (fs : disk) (st : session) (username pw : string) :
  ((authenticate_user fs st username pw).2 = true <->
   exists acct, stored_account fs username = Some acct
                /\ password acct = Some (hash_password pw))
  /\ (stored_account fs username = None ->
      authenticate_user fs st username pw = (st, false)).
Proof.
  rewrite authenticate_user_unfold. split.
  - destruct (stored_account fs username) as [acct |]; simpl.
    + destruct (password acct) as [stored |] eqn:Hp; simpl.
      * destruct (verify_password stored pw) eqn:Hv; simpl.
        -- apply verify_password_spec in Hv. subst stored.
           split; [intros _; exists acct; auto | reflexivity].
        -- split; [discriminate |].
           intros (acct' & [= <-] & Hp'). rewrite Hp in Hp'. injection Hp' as ->.
           assert (verify_password (hash_password pw) pw = true) as Hv'
             by (apply verify_password_spec; reflexivity).
           congruence.
      * split; [discriminate |]. intros (acct' & [= <-] & Hp'). congruence.
    + split; [discriminate |]. intros (acct' & [=] & _).
  - intros ->. reflexivity.
Qed.

(** C7, at the bootstrap store: the default password opens the session. *)
Lemma authenticate_user_iff_witness :
  let fs := initialize_user_db "2024-01-01 00:00:00" {| tables := ∅; documents := ∅ |} in
  let st := {| authenticated := false; current_user := None; session_is_admin := false |} in
  (authenticate_user fs st "admin" "admin123").2 = true
  /\ authenticate_user fs st "guest" "admin123" = (st, false).
Proof.
  intros fs st. split.
  - apply (proj1 (authenticate_user_iff fs st "admin" "admin123")).
    eexists. split; [vm_compute; reflexivity | reflexivity].
  - apply (proj2 (authenticate_user_iff fs st "guest" "admin123")).
    vm_compute. reflexivity.
Defined.

(** C10. Creating a user whose name the store already has answers
    "Username already exists" and leaves the disk exactly as it was. *)
Theorem create_user_existing (fs : disk) (now username pw : string) (admin : bool) :
  is_Some (stored_account fs username) ->
  create_user fs now username pw admin = (fs, (false, "Username already exists")).
Proof.
  unfold stored_account, create_user, open_read. intros [acct Hacct].
  destruct (documents fs !! USER_DB_FILE) as [[users | raw] |] eqn:Hdoc; try discriminate.
  rewrite bool_decide_true by eauto. simpl. rewrite Hacct. reflexivity.
Qed.

Lemma create_user_existing_witness :
  let fs := initialize_user_db "2024-01-01 00:00:00" {| tables := ∅; documents := ∅ |} in
  create_user fs "2024-02-02 10:00:00" "admin" "secret" false
  = (fs, (false, "Username already exists")).
Proof.
  intros fs. apply (create_user_existing fs). vm_compute. eexists. reflexivity.
Defined.

(** C8. Deleting "admin" and deleting the caller's own account are refused
    as protected and write nothing; deleting a name the store does not have
    answers not-found and writes nothing; any other deletion rewrites the
    store without the account. *)
Theorem delete_user_protected (fs : disk) (st : session) (caller : string) :
  current_user st = Some caller ->
  delete_result_of (delete_user fs st "admin").2 = Protected
  /\ (delete_user fs st "admin").1 = fs
  /\ delete_result_of (delete_user fs st caller).2 = Protected
  /\ (delete_user fs st caller).1 = fs
  /\ (forall users username,
        username <> "admin" -> username <> caller ->
        stored_users fs = Some users ->
        match users !! username with
        | None =>
            delete_user fs st username = (fs, st_error "User not found!")
            /\ delete_result_of (delete_user fs st username).2 = NotFound
        | Some _ =>
            (delete_user fs st username).1
            = {| tables := tables fs;
                 documents := <[USER_DB_FILE := Document (delete username users)]>
                                (documents fs) |}
            /\ delete_result_of (delete_user fs st username).2 = Deleted
        end).
Proof.
  intros Hcaller.
  assert (Hself : delete_user fs st caller
                  = (fs, st_error "You cannot delete your own account!")).
  { unfold delete_user. rewrite Hcaller, bool_decide_true by reflexivity. reflexivity. }
  assert (Hadmin : delete_result_of (delete_user fs st "admin").2 = Protected
                   /\ (delete_user fs st "admin").1 = fs).
  { unfold delete_user. case_bool_decide; simpl; auto. }
  destruct Hadmin as [Ha1 Ha2]. rewrite Hself. simpl.
  repeat split; auto.
  intros users username Hna Hnc Hst.
  unfold delete_user, stored_users, open_read in *. rewrite Hcaller.
  rewrite bool_decide_false by congruence.
  destruct (String.eqb_spec username "admin") as [-> | _]; [congruence |].
  destruct (documents fs !! USER_DB_FILE) as [[users' | raw] |]; try discriminate.
  injection Hst as ->. simpl.
  destruct (users !! username); simpl; auto.
Qed.

Lemma delete_user_protected_witness :
  let fs0 := initialize_user_db "2024-01-01 00:00:00" {| tables := ∅; documents := ∅ |} in
  let fs := (create_user fs0 "2024-01-02 08:00:00" "clerk" "secret" true).1 in
  let st := {| authenticated := true; current_user := Some "clerk";
               session_is_admin := true |} in
  delete_result_of (delete_user fs st "admin").2 = Protected
  /\ delete_result_of (delete_user fs st "clerk").2 = Protected.
Proof.
  intros fs0 fs st.
  destruct (delete_user_protected fs st "clerk" eq_refl) as (H1 & _ & H2 & _).
  split; assumption.
Defined.

(** ** Identity generator *)

Lemma md5_digest_shape (msg : list Z) :
  exists a b c d, Hashlib.md5_digest msg = flat_map (Hashlib.le_bytes 4) [a; b; c; d].
Proof.
  unfold Hashlib.md5_digest.
  destruct (fold_left _ _ _) as [[[a b] c] d]. eauto.
Qed.

Lemma upper_hex_digit (k : Z) :
  (0 <= k < 16)%Z -> is_upper_hex (upper_ascii (Hashlib.hex_digit k)) = true.
Proof.
  intros Hk.
  assert (Hcases : Forall (fun n => is_upper_hex (upper_ascii (Hashlib.hex_digit (Z.of_nat n))) = true)
                     (seq 0 16)).
  { repeat constructor. }
  rewrite Forall_forall in Hcases.
  specialize (Hcases (Z.to_nat k)).
  rewrite Z2Nat.id in Hcases by lia. apply Hcases.
  apply elem_of_seq. lia.
Qed.

(** C9. The identifier is the upper-cased first eight hexadecimal digits of
    the MD5 digest of the name, an underscore and the class; it is a
    function of the pair, so equal pairs have equal identifiers; every pair
    of strings, the empty ones included, has one, of eight characters, each
    an upper-case hexadecimal digit. *)
Theorem generate_student_id_spec (student_name class_category : string) :
  generate_student_id student_name class_category
  = upper (slice_to 8 (Hashlib.md5_hexdigest (student_name +:+ "_" +:+ class_category)))
  /\ String.length (generate_student_id student_name class_category) = 8
  /\ forallb is_upper_hex
       (list_ascii_of_string (generate_student_id student_name class_category)) = true
  /\ (forall n c, n = student_name -> c = class_category ->
        generate_student_id n c = generate_student_id student_name class_category)
  /\ generate_student_id EmptyString EmptyString = "B14A7B80".
Proof.
  split; [reflexivity |].
  assert (Hshape : exists b0 b1 b2 b3,
             Forall (fun k => 0 <= k < 16)%Z [b0.1; b0.2; b1.1; b1.2; b2.1; b2.2; b3.1; b3.2]
             /\ generate_student_id student_name class_category
                = upper (string_of_list_ascii
                    [Hashlib.hex_digit b0.1; Hashlib.hex_digit b0.2;
                     Hashlib.hex_digit b1.1; Hashlib.hex_digit b1.2;
                     Hashlib.hex_digit b2.1; Hashlib.hex_digit b2.2;
                     Hashlib.hex_digit b3.1; Hashlib.hex_digit b3.2])).
  { unfold generate_student_id, Hashlib.md5_hexdigest, Hashlib.hex_of_bytes.
    destruct (md5_digest_shape
                (Hashlib.bytes_of_string (student_name +:+ "_" +:+ class_category)))
      as (a & b & c & d & ->).
    cbn -[Z.div Z.modulo Hashlib.hex_digit].
    eexists (_, _), (_, _), (_, _), (_, _). split; [| reflexivity].
    cbn -[Z.div Z.modulo]. repeat constructor; apply Z.mod_pos_bound; lia. }
  destruct Hshape as (b0 & b1 & b2 & b3 & Hb & Heq).
  repeat (apply Forall_cons in Hb as [? Hb]).
  split; [rewrite Heq; reflexivity |]. split.
  - rewrite Heq. simpl. rewrite !upper_hex_digit by assumption. reflexivity.
  - split; [intros n c -> ->; reflexivity | vm_compute; reflexivity].
Qed.

(** ** Report engine *)

#[global] Instance cell_le_total : Total cell_le.
Proof.
  intros [| x | x] [| y | y]; simpl; auto.
  - lia.
  - apply (total String.le).
Qed.

#[global] Instance cell_le_trans : Transitive cell_le.
Proof.
  intros [| x | x] [| y | y] [| z | z]; simpl; auto; try tauto.
  - lia.
  - apply (transitivity (R := String.le)).
Qed.

Section Keys.

Variable df : DataFrame.
Variable key : string.

(** The keys of a grouping: the distinct values of the key column, the
    missing one left out, in ascending order. *)
Let keys : list cell := merge_sort cell_le (unique (series df key)).

Lemma elem_of_unique (cs : list cell) (c : cell) :
  c ∈ unique cs <-> c ≠ NaN /\ c ∈ cs.
Proof.
  unfold unique. rewrite elem_of_remove_dups, list_elem_of_filter.
  destruct c; simpl; intuition congruence.
Qed.

Lemma elem_of_series (col : string) (c : cell) :
  c ∈ series df col <-> exists r, r ∈ rows df /\ loc (columns df) r col = c.
Proof.
  unfold series. rewrite list_elem_of_In, in_map_iff.
  split; intros (r & H1 & H2); exists r; rewrite ?list_elem_of_In in *; auto.
Qed.

Lemma keys_sorted : StronglySorted cell_le keys.
Proof. apply StronglySorted_merge_sort; apply _. Qed.

Lemma keys_NoDup : NoDup keys.
Proof.
  unfold keys. rewrite merge_sort_Permutation. apply NoDup_remove_dups.
Qed.

Lemma elem_of_keys (k : cell) :
  k ∈ keys <-> k ≠ NaN /\ exists r, r ∈ rows df /\ loc (columns df) r key = k.
Proof.
  unfold keys. rewrite merge_sort_Permutation, elem_of_unique, elem_of_series.
  reflexivity.
Qed.

End Keys.

Lemma groupby_sum_keys (df : DataFrame) (key value : string) :
  map fst (groupby_sum df key value) = merge_sort cell_le (unique (series df key)).
Proof. unfold groupby_sum. rewrite map_map. simpl. apply map_id. Qed.

Lemma classSummary_Some (df : DataFrame) (category : string) (s : class_summary) :
  classSummary df category = Some s ->
  class_rows df category <> []
  /\ s = let class_df := select_eq df "Class Category" (Str category) in
         {| total_students := nunique (series class_df "Student Name");
            total_received := series_sum (series class_df "Received Amount");
            unpaid_students :=
              nunique (series (select_eq class_df "Monthly Fee" (Num 0)) "Student Name");
            monthly_summary := groupby_sum class_df "Month" "Received Amount" |}.
Proof.
  unfold classSummary. change (rows (select_eq df "Class Category" (Str category)))
    with (class_rows df category).
  destruct (class_rows df category); [discriminate |].
  intros [= <-]. split; [discriminate | reflexivity].
Qed.

(** C5, as the code has it.  The monthly series of a class has one entry
    for each month label that occurs in the rows of the class, the entries
    in ascending order of their labels, each with the sum of the received
    amounts of the rows of that month. *)
Theorem monthly_summary_sorted (df : DataFrame) (category : string) (s : class_summary) :
  classSummary df category = Some s ->
  StronglySorted cell_le (map fst (monthly_summary s))
  /\ NoDup (map fst (monthly_summary s))
  /\ (forall m, m ∈ map fst (monthly_summary s) <->
                m ≠ NaN /\ exists r, r ∈ class_rows df category
                                     /\ loc (columns df) r "Month" = m)
  /\ (forall m v, (m, v) ∈ monthly_summary s -> v = received_in_month df category m).
Proof.
  intros Hs. apply classSummary_Some in Hs as [_ ->]. simpl.
  rewrite groupby_sum_keys.
  split; [apply keys_sorted |]. split; [apply keys_NoDup |]. split.
  - intros m. apply (elem_of_keys (select_eq df "Class Category" (Str category))).
  - intros m v Hin. unfold groupby_sum in Hin.
    apply list_elem_of_In, in_map_iff in Hin as (k & [= <- <-] & _). reflexivity.
Qed.

(** C5, as the specification words it, fails: for a class with a row in MAY
    and a row in AUGUST the series is AUGUST, MAY: two entries, not twelve,
    and not in the order of the calendar. *)
Lemma monthly_summary_not_calendar :
  let df := frame_of_rows [fee_row "Ali" "Class 1" "MAY" 100 100;
                           fee_row "Ali" "Class 1" "AUGUST" 50 50] in
  exists s, classSummary df "Class 1" = Some s
            /\ monthly_summary s = [(Str "AUGUST", 50%Z); (Str "MAY", 100%Z)]
            /\ monthly_summary s <> calendar_series df "Class 1"
            /\ in_calendar_order (map fst (monthly_summary s)) months = false.
Proof.
  intros df. eexists. split; [vm_compute; reflexivity |].
  split; [reflexivity |]. split; [discriminate | reflexivity].
Qed.

Lemma monthly_summary_sorted_witness :
  let df := frame_of_rows [fee_row "Ali" "Class 1" "MAY" 100 100;
                           fee_row "Ali" "Class 1" "AUGUST" 50 50] in
  exists s, classSummary df "Class 1" = Some s
            /\ StronglySorted cell_le (map fst (monthly_summary s)).
Proof.
  intros df. eexists. split; [vm_compute; reflexivity |].
  apply (monthly_summary_sorted df "Class 1"). vm_compute. reflexivity.
Defined.

(** C6. The unpaid count of a class is the number of distinct student names
    of the class that have a row with a monthly fee of zero, whatever their
    other rows say. *)
Theorem unpaid_students_count (df : DataFrame) (category : string) (s : class_summary) :
  classSummary df category = Some s ->
  exists names : list cell,
    NoDup names
    /\ (forall name, name ∈ names <-> is_unpaid df category name)
    /\ unpaid_students s = List.length names.
Proof.
  intros Hs. apply classSummary_Some in Hs as [_ ->]. simpl.
  set (class_df := select_eq df "Class Category" (Str category)).
  exists (unique (series (select_eq class_df "Monthly Fee" (Num 0)) "Student Name")).
  split; [apply NoDup_remove_dups |]. split; [| reflexivity].
  intros name. rewrite elem_of_unique, elem_of_series. unfold is_unpaid.
  apply and_iff_compat_l. simpl.
  split.
  - intros (r & Hr & Hname).
    apply list_elem_of_filter in Hr as [Hfee Hr].
    apply list_elem_of_filter in Hr as [Hcat Hr].
    apply bool_decide_unpack in Hfee, Hcat. eauto.
  - intros (r & Hr & Hcat & Hname & Hfee). exists r. split; [| assumption].
    apply list_elem_of_filter. split; [apply bool_decide_pack; assumption |].
    apply list_elem_of_filter. split; [apply bool_decide_pack; assumption | assumption].
Qed.

(** C6, at two students of "Class 1": Ali paid in April and has a zero fee
    in May, Sara paid in both months; one student is unpaid. *)
Lemma unpaid_students_count_witness :
  let df := frame_of_rows [fee_row "Ali" "Class 1" "APRIL" 500 500;
                           fee_row "Sara" "Class 1" "APRIL" 500 500;
                           fee_row "Ali" "Class 1" "MAY" 0 0;
                           fee_row "Sara" "Class 1" "MAY" 500 500] in
  exists s, classSummary df "Class 1" = Some s
            /\ unpaid_students s = 1
            /\ exists names, (forall name, name ∈ names <-> is_unpaid df "Class 1" name)
                             /\ unpaid_students s = List.length names.
Proof.
  intros df. eexists. split; [vm_compute; reflexivity |].
  split; [vm_compute; reflexivity |].
  destruct (unpaid_students_count df "Class 1" _ eq_refl) as (names & _ & Hin & Hlen).
  exists names. split; assumption.
Defined.

Lemma filter_grouped (A : Type) (key : A -> cell) (g : cell -> A) (keys : list cell) (k : cell) :
  (forall k', key (g k') = k') ->
  NoDup keys ->
  filter (fun e : A => bool_decide (key e = k)) (map g keys)
  = if decide (k ∈ keys) then [g k] else [].
Proof.
  intros Hkey.
  induction 1 as [| k' keys Hnotin Hnodup IH].
  - case_decide as Hin; [apply elem_of_nil in Hin; contradiction | reflexivity].
  - cbn [map]. rewrite filter_cons, IH, Hkey.
    destruct (decide (k' = k)) as [-> | Hne].
    + rewrite decide_True by (apply bool_decide_pack; reflexivity).
      rewrite decide_False by assumption.
      rewrite decide_True by apply list_elem_of_here. reflexivity.
    + rewrite decide_False by (intros H%bool_decide_unpack; contradiction).
      destruct (decide (k ∈ keys)) as [Hin | Hout].
      * rewrite decide_True by (apply list_elem_of_further; assumption). reflexivity.
      * rewrite decide_False; [reflexivity |].
        intros [-> | Hin]%elem_of_cons; contradiction.
Qed.

Lemma filter_none {A} (P : A -> Prop) `{!forall x, Decision (P x)} (l : list A) :
  (forall x, x ∈ l -> ~ P x) -> filter P l = [].
Proof.
  induction l as [| x l IH]; intros Hl; [reflexivity |].
  rewrite filter_cons, decide_False by (apply Hl, list_elem_of_here).
  apply IH. intros y Hy. apply Hl, list_elem_of_further, Hy.
Qed.

Lemma series_sum_no_rows (df : DataFrame) (key value : string) (k : cell) :
  k ≠ NaN ->
  k ∉ merge_sort cell_le (unique (series df key)) ->
  series_sum (series (select_eq df key k) value) = 0%Z.
Proof.
  intros Hk Hout. unfold series, select_eq. simpl.
  replace (filter _ (rows df)) with (@nil (list cell)); [reflexivity |].
  symmetry. apply filter_none. intros r Hr Heq.
  apply bool_decide_unpack in Heq. apply Hout, elem_of_keys. eauto.
Qed.

Lemma merge_left_lines (student_data : DataFrame) (all_months : list string) :
  map (fun '(m, fee, received) =>
         {| line_month := m;
            line_monthly_fee := fillna0 fee;
            line_received := fillna0 received;
            line_status := if (0 <? fillna0 fee)%Z then "Paid" else "Unpaid" |})
      (merge_left all_months
         (groupby_agg student_data "Month" "Monthly Fee" "Received Amount"))
  = map (fun m =>
           let fee := series_sum (series (select_eq student_data "Month" (Str m)) "Monthly Fee") in
           {| line_month := m;
              line_monthly_fee := fee;
              line_received :=
                series_sum (series (select_eq student_data "Month" (Str m)) "Received Amount");
              line_status := if (0 <? fee)%Z then "Paid" else "Unpaid" |})
        all_months.
Proof.
  unfold merge_left, groupby_agg.
  induction all_months as [| m ms IH]; [reflexivity |].
  cbn [flat_map]. rewrite map_app, IH. clear IH.
  change (m :: ms) with ([m] ++ ms). rewrite (map_app _ [m] ms). f_equal.
  rewrite (filter_grouped _ (fun e : cell * Z * Z => e.1.1)
             (fun k => (k, series_sum (series (select_eq student_data "Month" k) "Monthly Fee"),
                        series_sum (series (select_eq student_data "Month" k) "Received Amount"))))
    by (reflexivity || apply keys_NoDup).
  destruct (decide (Str m ∈ _)) as [Hin | Hout]; simpl.
  - reflexivity.
  - rewrite !series_sum_no_rows by (discriminate || assumption). reflexivity.
Qed.

Lemma studentYearlyReport_lines (df : DataFrame) (student category : string)
    (rep : yearly_report) :
  studentYearlyReport df student category = Some rep ->
  monthly_report rep = map (month_line_of df student category) months.
Proof.
  unfold studentYearlyReport.
  change (rows {| columns := columns df; rows := ?rs |}) with rs.
  fold (student_rows df student category).
  destruct (student_rows df student category) as [| first rest] eqn:Hrows; [discriminate |].
  intros [= <-]. cbn [monthly_report]. rewrite <- Hrows.
  exact (merge_left_lines
           {| columns := columns df; rows := student_rows df student category |} months).
Qed.

(** C2. For the two rows of Ali in "Class 1", 500 paid and received in
    APRIL and nothing in MAY, whatever the other columns hold, the yearly
    report has a total monthly fee of 500 and a total received of 500, and
    its table has the twelve months in the order of the calendar: APRIL
    "Paid", MAY "Unpaid", the ten others zero and "Unpaid".  In every
    report the table has the twelve months, each with its sums and tagged
    "Paid" exactly when its monthly fee summed is positive. *)
Theorem studentYearlyReport_scenario :
  (forall id1 sec1 ann1 adm1 date1 sig1 ts1 id2 sec2 ann2 adm2 date2 sig2 ts2 : cell,
     let df := frame_of_rows
       [[id1; Str "Ali"; Str "Class 1"; sec1; Str "APRIL"; Num 500; ann1; adm1;
         Num 500; date1; sig1; ts1];
        [id2; Str "Ali"; Str "Class 1"; sec2; Str "MAY"; Num 0; ann2; adm2;
         Num 0; date2; sig2; ts2]] in
     exists rep,
       studentYearlyReport df "Ali" "Class 1" = Some rep
       /\ total_monthly_fee rep = 500%Z
       /\ report_total_received rep = 500%Z
       /\ monthly_report rep =
          {| line_month := "APRIL"; line_monthly_fee := 500; line_received := 500;
             line_status := "Paid" |}
          :: {| line_month := "MAY"; line_monthly_fee := 0; line_received := 0;
                line_status := "Unpaid" |}
          :: map (fun m => {| line_month := m; line_monthly_fee := 0; line_received := 0;
                              line_status := "Unpaid" |})
                 ["JUNE"; "JULY"; "AUGUST"; "SEPTEMBER"; "OCTOBER"; "NOVEMBER";
                  "DECEMBER"; "JANUARY"; "FEBRUARY"; "MARCH"])
  /\ (forall (df : DataFrame) (student category : string) (rep : yearly_report),
        studentYearlyReport df student category = Some rep ->
        map line_month (monthly_report rep) = months
        /\ monthly_report rep = map (month_line_of df student category) months
        /\ (forall line, line ∈ monthly_report rep ->
              (line_status line = "Paid" <-> (0 < line_monthly_fee line)%Z)
              /\ (line_status line = "Unpaid" <-> ~ (0 < line_monthly_fee line)%Z))).
Proof.
  split.
  - intros. eexists. split; [vm_compute; reflexivity |].
    repeat split; reflexivity.
  - intros df student category rep Hrep.
    apply studentYearlyReport_lines in Hrep. rewrite Hrep. split; [| split].
    + rewrite map_map. apply map_id.
    + reflexivity.
    + intros line Hline.
      apply list_elem_of_In, in_map_iff in Hline as (m & <- & _).
      unfold month_line_of. simpl.
      destruct (Z.ltb_spec 0 (sum_in_month df student category "Monthly Fee" m)).
      * split; split; try reflexivity; try discriminate; try lia; auto.
      * split; split; try reflexivity; try discriminate; try lia.
Qed.

(** ** Dates: what is written is read back *)

Lemma digit_digit_char (n : nat) : digit (digit_char n) = Some (n mod 10).
Proof.
  unfold digit, digit_char.
  pose proof (Nat.mod_upper_bound n 10 ltac:(lia)) as Hlt.
  rewrite nat_ascii_embedding by lia.
  destruct (Nat.leb_spec 48 (48 + n mod 10)); [| lia].
  destruct (Nat.leb_spec (48 + n mod 10) 57); [| lia].
  simpl. f_equal. lia.
Qed.

Lemma num2_fmt2 (n : nat) :
  num2 (digit_char (n / 10)) (digit_char n) = Some (n mod 100).
Proof.
  unfold num2. rewrite !digit_digit_char. cbn [mbind option_bind]. f_equal.
  pose proof (Nat.div_mod_eq n 10). pose proof (Nat.div_mod_eq (n / 10) 10).
  pose proof (Nat.div_mod_eq n 100).
  pose proof (Nat.mod_upper_bound n 10 ltac:(lia)).
  pose proof (Nat.mod_upper_bound (n / 10) 10 ltac:(lia)).
  pose proof (Nat.mod_upper_bound n 100 ltac:(lia)).
  assert (n / 10 / 10 = n / 100) by (rewrite Nat.Div0.div_div; reflexivity).
  lia.
Qed.

Lemma num4_fmt4 (n : nat) :
  n < 100 * 100 ->
  num4 (digit_char (n / 100 / 10)) (digit_char (n / 100))
       (digit_char (n / 10)) (digit_char n) = Some n.
Proof.
  intros Hn. unfold num4. rewrite !num2_fmt2. cbn [mbind option_bind]. f_equal.
  pose proof (Nat.div_mod_eq n 100).
  assert (n / 100 < 100) by (apply Nat.Div0.div_lt_upper_bound; lia).
  rewrite (Nat.mod_small (n / 100)) by lia. lia.
Qed.

Lemma is_sep_digit_char (n : nat) : is_sep (digit_char n) = false.
Proof.
  unfold is_sep, digit_char.
  pose proof (Nat.mod_upper_bound n 10 ltac:(lia)) as Hlt.
  assert (Hne : forall k, k < 48 -> Ascii.eqb (ascii_of_nat (48 + n mod 10)) (ascii_of_nat k) = false).
  { intros k Hk. apply Ascii.eqb_neq. intros Heq.
    apply (f_equal nat_of_ascii) in Heq. rewrite !nat_ascii_embedding in Heq by lia. lia. }
  change "-"%char with (ascii_of_nat 45). change "/"%char with (ascii_of_nat 47).
  rewrite !Hne by lia. reflexivity.
Qed.

Lemma valid_date_bounds (y m d : nat) :
  valid_date y m d = true -> y < 100 * 100 /\ m < 100 /\ d < 100.
Proof.
  unfold valid_date. rewrite !andb_true_iff, !Nat.leb_le.
  intros [[[[[Hy1 Hy2] Hm1] Hm2] Hd1] Hd2].
  assert (days_in_month y m <= 31).
  { unfold days_in_month.
    do 13 (destruct m as [| m]; [try destruct (is_leap y); lia |]). lia. }
  lia.
Qed.

Lemma valid_time_bounds (h mi s : nat) :
  valid_time h mi s = true -> h < 24 /\ mi < 60 /\ s < 60.
Proof.
  unfold valid_time. rewrite !andb_true_iff, !Nat.ltb_lt. tauto.
Qed.

(** Reading back a formatted date, day first, gives a date that formats to
    the same text. *)
Lemma parse_strftime (fmt : date_format) (d : datetime) :
  valid_datetime d = true ->
  exists d', parse_datetime true (strftime fmt d) = Some d'
             /\ valid_datetime d' = true
             /\ strftime fmt d' = strftime fmt d.
Proof.
  unfold valid_datetime. rewrite andb_true_iff. intros [Hdate Htime].
  pose proof (valid_date_bounds _ _ _ Hdate) as (Hy & Hm & Hd).
  pose proof (valid_time_bounds _ _ _ Htime) as (Hh & Hmi & Hs).
  unfold parse_datetime, strftime.
  rewrite list_ascii_of_string_of_list_ascii.
  destruct fmt; cbn [fmt2 fmt4 app parse_time];
    rewrite ?num2_fmt2, ?is_sep_digit_char; cbn [is_sep Ascii.eqb Bool.eqb orb andb];
    cbn [mbind option_bind];
    rewrite ?(Nat.mod_small (hour d)), ?(Nat.mod_small (minute d)) by lia.
  - (* '%d-%m-%Y' *)
    rewrite num4_fmt4 by lia. cbn [mbind option_bind].
    rewrite !Nat.mod_small by lia.
    unfold make_date. rewrite Hdate. cbn [from_option].
    eexists. split; [reflexivity |].
    cbn [year month day hour minute second]. rewrite Hdate. split; reflexivity.
  - (* '%d-%m-%Y %H:%M' *)
    assert (Hv : valid_time (hour d) (minute d) 0 = true).
    { unfold valid_time. rewrite !andb_true_iff, !Nat.ltb_lt. lia. }
    rewrite Hv. cbn [mbind option_bind].
    rewrite num4_fmt4 by lia. cbn [mbind option_bind].
    rewrite !Nat.mod_small by lia.
    unfold make_date. rewrite Hdate. cbn [from_option].
    eexists. split; [reflexivity |].
    cbn [year month day hour minute second fst snd]. rewrite Hdate, Hv. split; reflexivity.
Qed.

Lemma make_date_Some (t : nat * nat * nat) (y m d : nat) (dt : datetime) :
  make_date t y m d = Some dt ->
  valid_date (year dt) (month dt) (day dt) = true
  /\ (hour dt, minute dt, second dt) = t.
Proof.
  unfold make_date. destruct (valid_date y m d) eqn:Hv; [| discriminate].
  intros [= <-]. simpl. split; [assumption | destruct t as [[? ?] ?]; reflexivity].
Qed.

Lemma parse_time_Some (tl : list ascii) (t : nat * nat * nat) :
  parse_time tl = Some t -> valid_time t.1.1 t.1.2 t.2 = true.
Proof.
  unfold parse_time.
  destruct tl as [| sp [| h1 [| h2 [| c1 [| m1 [| m2 tl']]]]]]; try discriminate.
  - intros [= <-]. reflexivity.
  - destruct (Ascii.eqb sp " " && Ascii.eqb c1 ":"); [| discriminate].
    destruct (num2 h1 h2) as [h |]; [| discriminate].
    destruct (num2 m1 m2) as [mi |]; [| discriminate].
    cbn [mbind option_bind].
    destruct (match tl' with [] => Some 0 | _ => _ end) as [s |]; [| discriminate].
    cbn [mbind option_bind].
    destruct (valid_time h mi s) eqn:Hv; [| discriminate].
    intros [= <-]. exact Hv.
Qed.

Lemma parse_datetime_valid (dayfirst : bool) (s : string) (d : datetime) :
  parse_datetime dayfirst s = Some d -> valid_datetime d = true.
Proof.
  unfold parse_datetime.
  destruct (list_ascii_of_string s)
    as [| c0 [| c1 [| c2 [| c3 [| c4 [| c5 [| c6 [| c7 [| c8 [| c9 tl]]]]]]]]]];
    try discriminate.
  destruct (parse_time tl) as [t |] eqn:Ht; [| discriminate].
  apply parse_time_Some in Ht. cbn [mbind option_bind].
  assert (Hmk : forall y m dd, make_date t y m dd = Some d -> valid_datetime d = true).
  { intros y m dd [Hdate Htime]%make_date_Some. unfold valid_datetime.
    rewrite Hdate. subst t. exact Ht. }
  destruct (is_sep c2 && is_sep c5).
  - destruct (num2 c0 c1) as [a |]; [| discriminate].
    destruct (num2 c3 c4) as [b |]; [| discriminate].
    destruct (num4 c6 c7 c8 c9) as [y |]; [| discriminate].
    cbn [mbind option_bind].
    destruct dayfirst.
    + destruct (make_date t y b a) eqn:H1; cbn [from_option]; [intros [= <-] | intros H2]; eauto.
    + destruct (make_date t y a b) eqn:H1; cbn [from_option]; [intros [= <-] | intros H2]; eauto.
  - destruct (is_sep c4 && is_sep c7); [| discriminate].
    destruct (num4 c0 c1 c2 c3) as [y |]; [| discriminate].
    destruct (num2 c5 c6) as [m |]; [| discriminate].
    destruct (num2 c8 c9) as [dd |]; [| discriminate].
    cbn [mbind option_bind]. eauto.
Qed.

(** ** The reader and the writer *)

Lemma na_values_not_int : Forall (fun v => int_of_str v = None) na_values.
Proof. repeat constructor. Qed.

Lemma na_values_short : Forall (fun v => String.length v <= 8) na_values.
Proof. repeat constructor. Qed.

Lemma int_of_str_of_int (n : Z) : int_of_str (str_of_int n) = Some n.
Proof.
  unfold int_of_str, str_of_int.
  rewrite DecimalString.NilZero.isi.
  - simpl. f_equal. apply DecimalZ.of_to.
  - destruct n; simpl; try discriminate.
    intros [= H]. exact (DecimalPos.Unsigned.to_uint_nonnil _ H).
  - destruct n; simpl; try discriminate.
    intros [= H]. exact (DecimalPos.Unsigned.to_uint_nonnil _ H).
Qed.

Lemma canonical_NaN : canonical NaN.
Proof. reflexivity. Qed.

Lemma canonical_Num (n : Z) : canonical (Num n).
Proof.
  unfold canonical, parse_field. simpl.
  rewrite bool_decide_false, int_of_str_of_int; [reflexivity |].
  intros Hin. pose proof na_values_not_int as Hna.
  rewrite Forall_forall in Hna. specialize (Hna _ Hin).
  rewrite int_of_str_of_int in Hna. discriminate.
Qed.

Lemma canonical_parse_field (s : string) : canonical (parse_field s).
Proof.
  assert (H : parse_field s = NaN \/ (exists n, parse_field s = Num n)
              \/ (parse_field s = Str s /\ (s ∉ na_values) /\ int_of_str s = None)).
  { unfold parse_field. case_bool_decide; auto. destruct (int_of_str s); eauto. }
  destruct H as [-> | [[n ->] | (-> & Hna & Hint)]].
  - apply canonical_NaN.
  - apply canonical_Num.
  - unfold canonical, parse_field. simpl.
    rewrite bool_decide_false, Hint by assumption. reflexivity.
Qed.

Lemma strftime_shape (fmt : date_format) (d : datetime) :
  exists rest,
    strftime fmt d
    = String (digit_char (day d / 10)) (String (digit_char (day d)) (String "-" rest))
    /\ 7 <= String.length rest.
Proof.
  destruct fmt; eexists; (split; [reflexivity |]); cbn; lia.
Qed.

Lemma canonical_strftime (fmt : date_format) (d : datetime) :
  canonical (Str (strftime fmt d)).
Proof.
  destruct (strftime_shape fmt d) as (rest & Heq & Hlen).
  unfold canonical, parse_field. cbn [print_cell]. rewrite Heq.
  rewrite bool_decide_false.
  - assert (Hint : int_of_str
        (String (digit_char (day d / 10)) (String (digit_char (day d)) (String "-" rest)))
        = None).
    { unfold int_of_str, DecimalString.NilZero.int_of_string.
      pose proof (is_sep_digit_char (day d / 10)) as Hsep.
      unfold is_sep in Hsep. apply orb_false_elim in Hsep as [-> _].
      unfold DecimalString.NilZero.uint_of_string.
      cbn [DecimalString.NilEmpty.uint_of_string].
      destruct (DecimalString.NilEmpty.uint_of_string rest); reflexivity. }
    rewrite Hint. reflexivity.
  - intros Hin. pose proof na_values_short as Hshort.
    rewrite Forall_forall in Hshort. specialize (Hshort _ Hin).
    cbn [String.length] in Hshort. lia.
Qed.

Lemma canonical_formatted (fmt : date_format) (c : cell) :
  formatted fmt c -> canonical c.
Proof.
  intros [-> | (d & _ & ->)]; [apply canonical_NaN | apply canonical_strftime].
Qed.

(** ** Frames: columns set and added *)

Lemma index_of_Some (col : string) (cols : list string) (i : nat) :
  index_of col cols = Some i -> cols !! i = Some col.
Proof.
  revert i. induction cols as [| c cols IH]; intros i; simpl; [discriminate |].
  destruct (String.eqb_spec c col) as [-> | Hne].
  - intros [= <-]. reflexivity.
  - destruct (index_of col cols) as [j |]; simpl; [| discriminate].
    intros [= <-]. simpl. auto.
Qed.

Lemma index_of_None (col : string) (cols : list string) :
  index_of col cols = None <-> col ∉ cols.
Proof.
  induction cols as [| c cols IH]; simpl.
  - split; [intros _; apply not_elem_of_nil | reflexivity].
  - destruct (String.eqb_spec c col) as [-> | Hne].
    + split; [discriminate | intros H; exfalso; apply H, list_elem_of_here].
    + rewrite not_elem_of_cons, <- IH.
      destruct (index_of col cols); simpl; split; try discriminate; intuition congruence.
Qed.

Lemma index_of_elem (col : string) (cols : list string) :
  col ∈ cols -> exists i, index_of col cols = Some i.
Proof.
  intros Hin. destruct (index_of col cols) as [i |] eqn:H; [eauto |].
  apply index_of_None in H. contradiction.
Qed.

Lemma index_of_app_l (col : string) (cols more : list string) (i : nat) :
  index_of col cols = Some i -> index_of col (cols ++ more) = Some i.
Proof.
  revert i. induction cols as [| c cols IH]; intros i; simpl; [discriminate |].
  destruct (String.eqb c col); [auto |].
  destruct (index_of col cols) as [j |]; simpl; [| discriminate].
  intros [= <-]. rewrite (IH j eq_refl). reflexivity.
Qed.

Lemma index_of_app_r (col : string) (cols more : list string) (j : nat) :
  col ∉ cols -> index_of col more = Some j ->
  index_of col (cols ++ more) = Some (List.length cols + j).
Proof.
  induction cols as [| c cols IH]; simpl; [auto |].
  intros [Hne Hout]%not_elem_of_cons Hj.
  destruct (String.eqb_spec c col) as [-> | _]; [contradiction |].
  rewrite (IH Hout Hj). reflexivity.
Qed.

Lemma index_of_inj (c1 c2 : string) (cols : list string) (i : nat) :
  index_of c1 cols = Some i -> index_of c2 cols = Some i -> c1 = c2.
Proof.
  intros H1%index_of_Some H2%index_of_Some. congruence.
Qed.

Lemma nth_insert (r : list cell) (i j : nat) (x : cell) :
  nth j (<[i := x]> r) NaN
  = if decide (i = j /\ i < List.length r) then x else nth j r NaN.
Proof.
  rewrite !nth_lookup. case_decide as H.
  - destruct H as [<- Hlt]. rewrite list_lookup_insert_eq by assumption. reflexivity.
  - destruct (decide (i = j)) as [<- | Hne].
    + rewrite list_insert_ge by lia. reflexivity.
    + rewrite list_lookup_insert_ne by assumption. reflexivity.
Qed.

Lemma setitem_col_map (df : DataFrame) (col : string) (i : nat) (g : cell -> cell) :
  index_of col (columns df) = Some i ->
  setitem_col df col (map g (map (fun r => nth i r NaN) (rows df)))
  = {| columns := columns df;
       rows := map (fun r => <[i := g (nth i r NaN)]> r) (rows df) |}.
Proof.
  intros Hi. unfold setitem_col. rewrite Hi. f_equal.
  induction (rows df) as [| r rs IH]; simpl; [reflexivity | rewrite IH; reflexivity].
Qed.

Lemma setitem_nan_new (df : DataFrame) (col : string) :
  col ∉ columns df ->
  setitem_nan df col
  = {| columns := columns df ++ [col]; rows := map (fun r => r ++ [NaN]) (rows df) |}.
Proof.
  intros Hout%index_of_None. unfold setitem_nan, setitem_col. rewrite Hout. f_equal.
  induction (rows df) as [| r rs IH]; simpl; [reflexivity | rewrite IH; reflexivity].
Qed.

Lemma add_columns_fold (wanted : list string) (df : DataFrame) :
  fold_left
    (fun df col => if bool_decide (col ∈ columns df) then df else setitem_nan df col)
    wanted df
  = {| columns := columns df ++ missing_columns (columns df) wanted;
       rows := map (fun r => r ++ repeat NaN (List.length (missing_columns (columns df) wanted)))
                   (rows df) |}.
Proof.
  revert df. induction wanted as [| c wanted IH]; intros df; simpl.
  - rewrite app_nil_r. destruct df as [cols rs]; simpl. f_equal.
    symmetry. transitivity (map (fun r : list cell => r) rs); [| apply map_id].
    apply map_ext. intros r. apply app_nil_r.
  - case_bool_decide as Hc; [apply IH |].
    rewrite IH, setitem_nan_new by assumption. simpl.
    rewrite <- app_assoc. f_equal. rewrite map_map. apply map_ext.
    intros r. rewrite <- app_assoc. reflexivity.
Qed.

Lemma elem_of_missing_columns (wanted cols : list string) (c : string) :
  c ∈ missing_columns cols wanted <-> c ∈ wanted /\ c ∉ cols.
Proof.
  revert cols. induction wanted as [| w wanted IH]; intros cols; simpl.
  - rewrite elem_of_nil. tauto.
  - case_bool_decide as Hw.
    + rewrite IH, elem_of_cons. split; [tauto |].
      intros [[-> | Hin] Hout]; [contradiction | tauto].
    + rewrite !elem_of_cons, IH, not_elem_of_app, list_elem_of_singleton.
      destruct (decide (c = w)) as [-> | Hne]; [tauto | tauto].
Qed.

Lemma missing_columns_nil (wanted cols : list string) :
  (forall c, c ∈ wanted -> c ∈ cols) -> missing_columns cols wanted = [].
Proof.
  intros Hall. destruct (missing_columns cols wanted) as [| c l] eqn:H; [reflexivity |].
  assert (Hc : c ∈ missing_columns cols wanted) by (rewrite H; apply list_elem_of_here).
  apply elem_of_missing_columns in Hc as [Hin Hout]. exfalso. auto.
Qed.

(** ** Date columns *)

Lemma to_datetime_strict (fmt : date_format) (dayfirst : bool) (col : list cell)
    (ds : list (option datetime)) :
  to_datetime dayfirst false col = Return ds ->
  dt_strftime fmt ds = map (format_cell fmt dayfirst) col.
Proof.
  revert ds. induction col as [| c col IH]; intros ds; simpl.
  - intros [= <-]. reflexivity.
  - destruct c as [| n | s]; simpl; try discriminate.
    + destruct (to_datetime dayfirst false col) as [ds' |]; simpl; [| discriminate].
      intros [= <-]. simpl. rewrite (IH ds' eq_refl). reflexivity.
    + destruct (parse_datetime dayfirst s) as [d |]; simpl; [| discriminate].
      destruct (to_datetime dayfirst false col) as [ds' |]; simpl; [| discriminate].
      intros [= <-]. simpl. rewrite (IH ds' eq_refl). reflexivity.
Qed.

Lemma to_datetime_coerce (fmt : date_format) (dayfirst : bool) (col : list cell) :
  exists ds, to_datetime dayfirst true col = Return ds
             /\ dt_strftime fmt ds = map (format_cell fmt dayfirst) col.
Proof.
  induction col as [| c col (ds & Hds & Hfmt)]; simpl; [eauto |].
  rewrite Hds.
  destruct c as [| n | s]; simpl; try (eexists; split; [reflexivity |]; simpl; congruence).
  destruct (parse_datetime dayfirst s) as [d |]; simpl;
    eexists; (split; [reflexivity |]); simpl; congruence.
Qed.

Lemma format_cell_formatted (fmt : date_format) (dayfirst : bool) (c : cell) :
  formatted fmt (format_cell fmt dayfirst c).
Proof.
  destruct c as [| n | s]; simpl; try (left; reflexivity).
  destruct (parse_datetime dayfirst s) as [d |] eqn:Hd; [| left; reflexivity].
  right. exists d. split; [eapply parse_datetime_valid, Hd | reflexivity].
Qed.

Lemma format_cell_id (fmt : date_format) (c : cell) :
  formatted fmt c -> format_cell fmt true c = c.
Proof.
  intros [-> | (d & Hd & ->)]; [reflexivity |]. simpl.
  destruct (parse_strftime fmt d Hd) as (d' & -> & _ & ->). reflexivity.
Qed.

Lemma to_datetime_formatted (fmt : date_format) (col : list cell) :
  Forall (formatted fmt) col -> exists ds, to_datetime true false col = Return ds.
Proof.
  induction 1 as [| c col Hc _ (ds & Hds)]; simpl; [eauto |].
  rewrite Hds. destruct Hc as [-> | (d & Hd & ->)]; simpl; [eauto |].
  destruct (parse_strftime fmt d Hd) as (d' & -> & _). simpl. eauto.
Qed.

Lemma format_dates_spec (df : DataFrame) (col : string) (fmt : date_format) (i : nat) :
  index_of col (columns df) = Some i ->
  exists dayfirst,
    format_dates df col fmt
    = Return {| columns := columns df;
                rows := map (reformat i fmt dayfirst) (rows df) |}.
Proof.
  intros Hi. unfold format_dates, getitem_col. rewrite Hi. simpl.
  destruct (to_datetime true false _) as [ds | e] eqn:Hstrict; simpl.
  - exists true. rewrite (to_datetime_strict fmt _ _ _ Hstrict).
    rewrite setitem_col_map by assumption. reflexivity.
  - exists false.
    destruct (to_datetime_coerce fmt false (map (fun r => nth i r NaN) (rows df)))
      as (ds & Hds & Hfmt).
    rewrite Hds. simpl. rewrite Hfmt, setitem_col_map by assumption. reflexivity.
Qed.

Lemma format_dates_stable (df : DataFrame) (col : string) (fmt : date_format) (i : nat) :
  index_of col (columns df) = Some i ->
  Forall (fun r => formatted fmt (nth i r NaN)) (rows df) ->
  format_dates df col fmt = Return df.
Proof.
  intros Hi Hfmt. unfold format_dates, getitem_col. rewrite Hi. simpl.
  destruct (to_datetime_formatted fmt (map (fun r => nth i r NaN) (rows df)))
    as (ds & Hds).
  { apply Forall_forall. intros c (r & <- & Hr)%list_elem_of_In%in_map_iff.
    rewrite Forall_forall in Hfmt. apply Hfmt, list_elem_of_In, Hr. }
  rewrite Hds. simpl. rewrite (to_datetime_strict fmt _ _ _ Hds).
  rewrite setitem_col_map by assumption.
  destruct df as [cols rs]. simpl in *. do 2 f_equal.
  transitivity (map (fun r : list cell => r) rs); [| apply map_id].
  apply map_ext_in. intros r Hr%list_elem_of_In.
  rewrite Forall_forall in Hfmt. rewrite format_cell_id by auto.
  apply list_insert_id'. intros Hlt.
  destruct (nth_lookup_or_length r i NaN) as [H | H]; [exact H | lia].
Qed.

(** ** The store read and written *)

Lemma filter_id {A} (P : A -> Prop) `{!forall x, Decision (P x)} (l : list A) :
  Forall P l -> filter P l = l.
Proof.
  induction 1 as [| x l Hx _ IH]; [reflexivity |].
  rewrite filter_cons, decide_True, IH by assumption. reflexivity.
Qed.

Lemma Forall_filter_keep {A} (P : A -> Prop) `{!forall x, Decision (P x)}
    (Q : A -> Prop) (l : list A) :
  Forall Q l -> Forall Q (filter P l).
Proof.
  induction 1 as [| x l Hx _ IH]; [constructor |].
  rewrite filter_cons. case_decide; [constructor |]; assumption.
Qed.

Lemma read_lines_spec (lines : list (list string)) (df : DataFrame) :
  read_lines lines = Return df ->
  Forall (fun r => List.length r = List.length (columns df)) (rows df)
  /\ Forall (Forall canonical) (rows df).
Proof.
  unfold read_lines.
  destruct (filter _ lines) as [| header data]; [discriminate |].
  destruct (forallb _ data) eqn:Hlen; [| discriminate].
  intros [= <-]. simpl.
  rewrite forallb_forall in Hlen.
  split; apply Forall_forall; intros r (l & <- & Hl)%list_elem_of_In%in_map_iff.
  - specialize (Hlen l Hl). apply Nat.leb_le in Hlen.
    unfold parse_line. rewrite length_app, length_map, repeat_length. lia.
  - unfold parse_line. apply Forall_app. split.
    + apply Forall_forall. intros c (s & <- & _)%list_elem_of_In%in_map_iff.
      apply canonical_parse_field.
    + apply Forall_forall. intros c Hc%list_elem_of_In%repeat_spec. subst c.
      apply canonical_NaN.
Qed.

Lemma first_frame_spec (legacy : bool) (fs : disk) (df : DataFrame) :
  first_frame legacy fs = Some df ->
  is_Some (tables fs !! CSV_FILE)
  /\ Forall (fun r => List.length r = List.length (columns df)) (rows df)
  /\ Forall (Forall canonical) (rows df).
Proof.
  unfold first_frame, read_csv, read_csv_skip_bad_lines.
  destruct (tables fs !! CSV_FILE) as [[lines | raw] |]; simpl.
  - destruct (read_lines lines) as [df' | e] eqn:Hread.
    + intros [= <-]. split; [eauto |]. eapply read_lines_spec, Hread.
    + destruct e; try discriminate. destruct legacy; [| discriminate].
      destruct (filter _ lines) as [| header data]; [discriminate |].
      destruct (read_lines (header :: _)) as [df' |] eqn:Hread'; [| discriminate].
      intros [= <-]. split; [eauto |]. eapply read_lines_spec, Hread'.
  - destruct legacy; discriminate.
  - discriminate.
Qed.

Lemma read_lines_to_lines (df : DataFrame) :
  columns df <> [] ->
  Forall (fun r => List.length r = List.length (columns df)) (rows df) ->
  Forall (Forall canonical) (rows df) ->
  read_lines (to_lines df) = Return df.
Proof.
  intros Hcols Hwidth Hcells. unfold read_lines, to_lines.
  assert (Hlines : Forall (fun l : list string => List.length l = List.length (columns df))
                     (map (map print_cell) (rows df))).
  { apply Forall_forall. intros l (r & <- & Hr)%list_elem_of_In%in_map_iff.
    rewrite length_map. rewrite Forall_forall in Hwidth.
    apply Hwidth, list_elem_of_In, Hr. }
  rewrite filter_id.
  - replace (forallb _ _) with true.
    + destruct df as [cols rs]. simpl in *. do 2 f_equal.
      rewrite map_map.
      transitivity (map (fun r : list cell => r) rs); [| apply map_id].
      apply map_ext_in. intros r Hr%list_elem_of_In.
      rewrite Forall_forall in Hwidth, Hcells.
      unfold parse_line. rewrite length_map, (Hwidth r Hr), Nat.sub_diag. simpl.
      rewrite app_nil_r, map_map.
      transitivity (map (fun c : cell => c) r); [| apply map_id].
      apply map_ext_in. intros c Hc%list_elem_of_In.
      specialize (Hcells r Hr). rewrite Forall_forall in Hcells. apply Hcells, Hc.
    + symmetry. apply forallb_forall. intros l Hl%list_elem_of_In.
      rewrite Forall_forall in Hlines. rewrite (Hlines l Hl). apply Nat.leb_refl.
  - constructor.
    + destruct (columns df); [contradiction | exact I].
    + eapply Forall_impl; [exact Hlines |]. intros l Hl.
      destruct l; [| exact I]. simpl in Hl.
      destruct (columns df); [contradiction | discriminate].
Qed.

Lemma expected_columns_present (cols : list string) (c : string) :
  c ∈ expected_columns -> c ∈ cols ++ missing_columns cols expected_columns.
Proof.
  intros Hc. apply elem_of_app. destruct (decide (c ∈ cols)); [auto | right].
  apply elem_of_missing_columns. auto.
Qed.

Lemma load_steps (df0 : DataFrame) :
  let added := missing_columns (columns df0) expected_columns in
  exists i1 i2 m1 m2,
    index_of "Date" (columns df0 ++ added) = Some i1
    /\ index_of "Entry Timestamp" (columns df0 ++ added) = Some i2
    /\ try_except
         (let df := add_missing_columns df0 in
          let! df := format_dates df "Date" DMY in
          let! df := format_dates df "Entry Timestamp" DMY_HM in
          Return (dropna_all df))
         (fun _ => empty_frame)
       = {| columns := columns df0 ++ added;
            rows := filter (fun r => negb (forallb is_nan r))
                      (map (loaded_row (List.length added) i1 i2 m1 m2) (rows df0)) |}.
Proof.
  intros added.
  destruct (index_of_elem "Date" (columns df0 ++ added)) as (i1 & Hi1).
  { apply expected_columns_present. unfold expected_columns.
    repeat (apply list_elem_of_here || apply list_elem_of_further). }
  destruct (index_of_elem "Entry Timestamp" (columns df0 ++ added)) as (i2 & Hi2).
  { apply expected_columns_present. unfold expected_columns.
    repeat (apply list_elem_of_here || apply list_elem_of_further). }
  unfold add_missing_columns. rewrite add_columns_fold. fold added. cbv zeta.
  destruct (format_dates_spec
              {| columns := columns df0 ++ added;
                 rows := map (fun r => r ++ repeat NaN (List.length added)) (rows df0) |}
              "Date" DMY i1 Hi1) as (m1 & ->).
  cbn [bind columns rows].
  destruct (format_dates_spec
              {| columns := columns df0 ++ added;
                 rows := map (reformat i1 DMY m1)
                           (map (fun r => r ++ repeat NaN (List.length added)) (rows df0)) |}
              "Entry Timestamp" DMY_HM i2 Hi2) as (m2 & ->).
  cbn [bind columns rows try_except]. exists i1, i2, m1, m2.
  split; [assumption |]. split; [assumption |].
  unfold dropna_all. cbn [columns rows]. rewrite !map_map. reflexivity.
Qed.

Lemma load_data_unreadable (legacy : bool) (fs : disk) :
  first_frame legacy fs = None -> load_data legacy fs = empty_frame.
Proof.
  unfold first_frame, load_data. case_bool_decide; cbn [negb]; [| reflexivity].
  destruct (read_csv fs CSV_FILE) as [df | e]; [discriminate |].
  destruct e; try reflexivity.
  destruct (read_csv_skip_bad_lines legacy fs CSV_FILE); [discriminate | reflexivity].
Qed.

Lemma load_data_frame (legacy : bool) (fs : disk) (df0 : DataFrame) :
  first_frame legacy fs = Some df0 ->
  let added := missing_columns (columns df0) expected_columns in
  exists i1 i2 m1 m2,
    index_of "Date" (columns df0 ++ added) = Some i1
    /\ index_of "Entry Timestamp" (columns df0 ++ added) = Some i2
    /\ load_data legacy fs
       = {| columns := columns df0 ++ added;
            rows := filter (fun r => negb (forallb is_nan r))
                      (map (loaded_row (List.length added) i1 i2 m1 m2) (rows df0)) |}.
Proof.
  intros Hframe added. subst added.
  destruct (first_frame_spec _ _ _ Hframe) as (Hfile & _).
  destruct (load_steps df0) as (i1 & i2 & m1 & m2 & Hi1 & Hi2 & Hload).
  exists i1, i2, m1, m2. split; [assumption |]. split; [assumption |].
  rewrite <- Hload. clear Hload.
  unfold first_frame in Hframe. unfold load_data.
  rewrite bool_decide_true by assumption. cbn [negb].
  destruct (read_csv fs CSV_FILE) as [df | e].
  - injection Hframe as ->. reflexivity.
  - destruct e; try discriminate.
    destruct (read_csv_skip_bad_lines legacy fs CSV_FILE) as [df |]; [| discriminate].
    injection Hframe as ->. reflexivity.
Qed.

(** ** What [load_data] returns *)

Lemma formatted_reformat (i : nat) (fmt : date_format) (dayfirst : bool) (r : list cell) :
  formatted fmt (nth i (reformat i fmt dayfirst r) NaN).
Proof.
  unfold reformat. rewrite nth_insert. case_decide as H.
  - apply format_cell_formatted.
  - left. apply nth_overflow. lia.
Qed.

Lemma nth_reformat_ne (i j : nat) (fmt : date_format) (dayfirst : bool) (r : list cell) :
  i <> j -> nth j (reformat i fmt dayfirst r) NaN = nth j r NaN.
Proof.
  intros Hne. unfold reformat. rewrite nth_insert.
  rewrite decide_False by tauto. reflexivity.
Qed.

Lemma nth_reformat_nan (i j : nat) (fmt : date_format) (dayfirst : bool) (r : list cell) :
  nth j r NaN = NaN -> nth j (reformat i fmt dayfirst r) NaN = NaN.
Proof.
  intros Hnan. unfold reformat. rewrite nth_insert. case_decide as H; [| assumption].
  destruct H as [-> _]. rewrite Hnan. reflexivity.
Qed.

Lemma length_loaded_row (added i1 i2 : nat) (m1 m2 : bool) (r : list cell) :
  List.length (loaded_row added i1 i2 m1 m2 r) = List.length r + added.
Proof.
  unfold loaded_row, reformat. rewrite !length_insert, length_app, repeat_length.
  reflexivity.
Qed.

Lemma canonical_loaded_row (added i1 i2 : nat) (m1 m2 : bool) (r : list cell) :
  Forall canonical r -> Forall canonical (loaded_row added i1 i2 m1 m2 r).
Proof.
  intros Hr. unfold loaded_row, reformat.
  apply Forall_insert; [| eapply canonical_formatted, format_cell_formatted].
  apply Forall_insert; [| eapply canonical_formatted, format_cell_formatted].
  apply Forall_app. split; [assumption |].
  apply Forall_forall. intros c Hc%list_elem_of_In%repeat_spec. subst c.
  apply canonical_NaN.
Qed.

Lemma load_data_loaded (legacy : bool) (fs : disk) (df0 : DataFrame) :
  first_frame legacy fs = Some df0 -> loaded (load_data legacy fs).
Proof.
  intros Hframe.
  destruct (first_frame_spec _ _ _ Hframe) as (_ & Hwidth & Hcells).
  destruct (load_data_frame _ _ _ Hframe) as (i1 & i2 & m1 & m2 & Hi1 & Hi2 & ->).
  assert (Hne : i1 <> i2).
  { intros ->. pose proof (index_of_inj _ _ _ _ Hi1 Hi2). discriminate. }
  rewrite Forall_forall in Hwidth, Hcells.
  split; cbn [columns rows].
  - intros col. apply expected_columns_present.
  - apply Forall_filter_keep, Forall_forall.
    intros r' (r & <- & Hr%list_elem_of_In)%list_elem_of_In%in_map_iff.
    rewrite length_loaded_row, length_app, (Hwidth r Hr). reflexivity.
  - apply Forall_filter_keep, Forall_forall.
    intros r' (r & <- & Hr%list_elem_of_In)%list_elem_of_In%in_map_iff.
    apply canonical_loaded_row, Hcells, Hr.
  - apply Forall_forall. intros r [Hr _]%list_elem_of_filter.
    destruct (forallb is_nan r); [contradiction | reflexivity].
  - apply Forall_filter_keep, Forall_forall.
    intros r' (r & <- & Hr%list_elem_of_In)%list_elem_of_In%in_map_iff.
    unfold loc. rewrite Hi1. unfold loaded_row.
    rewrite nth_reformat_ne by auto. apply formatted_reformat.
  - apply Forall_filter_keep, Forall_forall.
    intros r' (r & <- & Hr%list_elem_of_In)%list_elem_of_In%in_map_iff.
    unfold loc. rewrite Hi2. unfold loaded_row. apply formatted_reformat.
Qed.

Lemma add_missing_columns_id (df : DataFrame) :
  (forall col, col ∈ expected_columns -> col ∈ columns df) ->
  add_missing_columns df = df.
Proof.
  intros Hall. unfold add_missing_columns.
  rewrite add_columns_fold, missing_columns_nil by assumption.
  destruct df as [cols rs]. cbn [columns rows List.length repeat].
  rewrite app_nil_r. f_equal.
  transitivity (map (fun r : list cell => r) rs); [| apply map_id].
  apply map_ext. intros r. apply app_nil_r.
Qed.

(** Writing a loaded frame and loading the store again gives the frame. *)
Lemma load_data_to_csv (legacy : bool) (fs : disk) (df : DataFrame) :
  loaded df -> load_data legacy (to_csv df CSV_FILE fs) = df.
Proof.
  intros [Hcols Hwidth Hcells Hrows Hdate Hstamp].
  destruct (index_of_elem "Date" (columns df)) as (i1 & Hi1).
  { apply Hcols. unfold expected_columns.
    repeat (apply list_elem_of_here || apply list_elem_of_further). }
  destruct (index_of_elem "Entry Timestamp" (columns df)) as (i2 & Hi2).
  { apply Hcols. unfold expected_columns.
    repeat (apply list_elem_of_here || apply list_elem_of_further). }
  assert (Hnonempty : columns df <> []).
  { intros Hnil. rewrite Hnil in Hi1. discriminate. }
  unfold load_data, read_csv, to_csv. cbn [tables].
  rewrite lookup_insert_eq, bool_decide_true by eauto. cbn [negb].
  rewrite read_lines_to_lines by assumption. cbn [bind].
  rewrite add_missing_columns_id by assumption.
  rewrite (format_dates_stable df "Date" DMY i1 Hi1).
  2:{ eapply Forall_impl; [exact Hdate |]. intros r. unfold loc. rewrite Hi1. auto. }
  cbn [bind].
  rewrite (format_dates_stable df "Entry Timestamp" DMY_HM i2 Hi2).
  2:{ eapply Forall_impl; [exact Hstamp |]. intros r. unfold loc. rewrite Hi2. auto. }
  cbn [bind try_except]. unfold dropna_all.
  rewrite filter_id.
  - destruct df; reflexivity.
  - eapply Forall_impl; [exact Hrows |]. intros r ->. exact I.
Qed.

(** C3. Loading the store, writing the loaded frame back in full with
    [update_data] and loading again gives the frame of the first load: the
    same columns, the same rows in the same order, the same values.  This
    holds for every store, readable or not. *)
Theorem load_update_load (legacy : bool) (fs : disk) :
  load_data legacy (update_data (load_data legacy fs) fs).1 = load_data legacy fs.
Proof.
  unfold update_data. cbn [fst].
  destruct (first_frame legacy fs) as [df0 |] eqn:Hframe.
  - apply load_data_to_csv. eapply load_data_loaded, Hframe.
  - rewrite (load_data_unreadable _ _ Hframe).
    unfold load_data, read_csv, to_csv. cbn [tables].
    rewrite lookup_insert_eq, bool_decide_true by eauto. reflexivity.
Qed.

(** ** The store on small inputs *)

(** A file as "Enter Fees" leaves it: the dates come back day first, the
    time without its seconds, the empty section as [NaN]. *)
Example load_data_entered :
  load_data false
    {| tables := {[ CSV_FILE :=
         Lines [expected_columns;
                ["7E892CE1"; "Ali"; "Class 1"; EmptyString; "APRIL"; "500"; "0"; "0";
                 "500"; "2024-04-05"; "Clerk"; "2024-04-05 09:30:12"]] ]};
       documents := ∅ |}
  = frame_of_rows
      [[Str "7E892CE1"; Str "Ali"; Str "Class 1"; NaN; Str "APRIL"; Num 500; Num 0;
        Num 0; Num 500; Str "05-04-2024"; Str "Clerk"; Str "05-04-2024 09:30"]].
Proof. vm_compute. reflexivity. Qed.

(** One date that is no date sends the whole column to the lenient read,
    which is month first. *)
Example load_data_mixed_dates :
  rows (load_data false
          {| tables := {[ CSV_FILE :=
               Lines [["Date"]; ["05-04-2024"]; ["soon"]; ["25-04-2024"]] ]};
             documents := ∅ |})
  = [Str "04-05-2024" :: repeat NaN 11; Str "25-04-2024" :: repeat NaN 11].
Proof. vm_compute. reflexivity. Qed.

(** A line with a field too many: dropped by the reader that has
    [error_bad_lines], an empty frame with the reader that refuses it. *)
Example load_data_bad_line :
  let fs := {| tables := {[ CSV_FILE :=
                 Lines [["Student Name"; "Month"]; ["Ali"; "MAY"; "extra"];
                        ["Sara"; "JUNE"]] ]};
               documents := ∅ |} in
  List.length (rows (load_data true fs)) = 1
  /\ load_data false fs = empty_frame.
Proof. split; vm_compute; reflexivity. Qed.

(** C4. [load_data] returns the empty frame when the file is absent and
    when none of its reads goes through (garbled text for one; any file the
    reader raises on, where the reader refuses [error_bad_lines]), as a
    value: no exception leaves the function.  When the store is read, the frame
    returned has the columns of the file followed by the expected columns
    the file lacks; each lacking column is [NaN] in every row returned; no
    row returned is [NaN] in all its columns, the rows returned being the
    rows of the file, filled and with their dates formatted, less those
    that are [NaN] throughout. *)
Theorem load_data_recovers (legacy : bool) (fs : disk) :
  (tables fs !! CSV_FILE = None -> load_data legacy fs = empty_frame)
  /\ (first_frame legacy fs = None -> load_data legacy fs = empty_frame)
  /\ (forall raw, tables fs !! CSV_FILE = Some (Garbled raw) ->
        load_data legacy fs = empty_frame)
  /\ (forall e, read_csv fs CSV_FILE = Raise e -> load_data false fs = empty_frame)
  /\ (forall df0, first_frame legacy fs = Some df0 ->
        let out := load_data legacy fs in
        columns out = columns df0 ++ missing_columns (columns df0) expected_columns
        /\ (forall col, col ∈ expected_columns -> col ∈ columns out)
        /\ (forall col r, col ∈ expected_columns -> col ∉ columns df0 ->
              r ∈ rows out -> loc (columns out) r col = NaN)
        /\ (forall r, r ∈ rows out -> forallb is_nan r = false)
        /\ exists i1 i2 m1 m2,
             rows out
             = filter (fun r => negb (forallb is_nan r))
                 (map (loaded_row
                         (List.length (missing_columns (columns df0) expected_columns))
                         i1 i2 m1 m2)
                      (rows df0))).
Proof.
  assert (Habsent : tables fs !! CSV_FILE = None -> first_frame legacy fs = None).
  { intros H. unfold first_frame, read_csv. rewrite H. reflexivity. }
  assert (Hgarbled : forall raw, tables fs !! CSV_FILE = Some (Garbled raw) ->
                                 first_frame legacy fs = None).
  { intros raw H. unfold first_frame, read_csv, read_csv_skip_bad_lines. rewrite H.
    destruct legacy; reflexivity. }
  split; [intros H; apply load_data_unreadable, Habsent, H |].
  split; [apply load_data_unreadable |].
  split; [intros raw H; eapply load_data_unreadable, Hgarbled, H |].
  split.
  { intros e He. apply load_data_unreadable. unfold first_frame. rewrite He.
    destruct e; reflexivity. }
  intros df0 Hframe out.
  destruct (first_frame_spec _ _ _ Hframe) as (_ & Hwidth & _).
  destruct (load_data_frame _ _ _ Hframe) as (i1 & i2 & m1 & m2 & Hi1 & Hi2 & Hload).
  subst out. rewrite Hload. cbn [columns rows].
  split; [reflexivity |]. split; [intros col; apply expected_columns_present |].
  split; [| split].
  - intros col r' Hexp Hout [_ Hr']%list_elem_of_filter.
    apply list_elem_of_In, in_map_iff in Hr' as (r & <- & Hr%list_elem_of_In).
    rewrite Forall_forall in Hwidth. specialize (Hwidth r Hr).
    destruct (index_of_elem col (missing_columns (columns df0) expected_columns))
      as (j & Hj).
    { apply elem_of_missing_columns. auto. }
    unfold loc. rewrite (index_of_app_r _ _ _ _ Hout Hj).
    unfold loaded_row. do 2 apply nth_reformat_nan.
    rewrite app_nth2 by lia. apply nth_repeat.
  - intros r [Hr _]%list_elem_of_filter.
    destruct (forallb is_nan r); [contradiction | reflexivity].
  - exists i1, i2, m1, m2. reflexivity.
Qed.

(** C4, at a store whose file has two of the twelve columns, a row and an
    empty row: the ten other columns are there and [NaN], and the empty row
    is gone. *)
Lemma load_data_recovers_witness :
  let fs := {| tables := {[ CSV_FILE :=
                 Lines [["Student Name"; "Date"]; ["Ali"; "2024-04-05"];
                        [EmptyString; EmptyString]] ]};
               documents := ∅ |} in
  load_data true fs
  = {| columns := ["Student Name"; "Date"; "ID"; "Class Category"; "Class Section";
                   "Month"; "Monthly Fee"; "Annual Charges"; "Admission Fee";
                   "Received Amount"; "Signature"; "Entry Timestamp"];
       rows := [[Str "Ali"; Str "05-04-2024"; NaN; NaN; NaN; NaN; NaN; NaN; NaN; NaN;
                 NaN; NaN]] |}
  /\ forall r, r ∈ rows (load_data true fs) ->
               loc (columns (load_data true fs)) r "Monthly Fee" = NaN.
Proof.
  intros fs. split; [vm_compute; reflexivity |].
  destruct (load_data_recovers true fs) as (_ & _ & _ & _ & H).
  destruct (H {| columns := ["Student Name"; "Date"];
                 rows := [[Str "Ali"; Str "2024-04-05"]; [NaN; NaN]] |})
    as (_ & _ & Hnan & _); [vm_compute; reflexivity |].
  intros r Hr. apply Hnan; [| | exact Hr].
  - unfold expected_columns.
    repeat (apply list_elem_of_here || apply list_elem_of_further).
  - cbn [columns]. intros Hin. repeat (apply elem_of_cons in Hin as [Hin | Hin];
      [discriminate |]). apply elem_of_nil in Hin. exact Hin.
Defined.

(** ** Reinitialisation *)

Lemma backup_name_fresh (stamp : string) : backup_name stamp <> CSV_FILE.
Proof. unfold backup_name, CSV_FILE. cbv [String.append]. discriminate. Qed.

(** The backup is a copy of the file as it was. *)
Lemma reinitialize_backup (stamp : string) (fs : disk) (c : csv_text) :
  tables fs !! CSV_FILE = Some c ->
  tables (reinitialize stamp fs).1 !! backup_name stamp = Some c.
Proof.
  intros Hc. unfold reinitialize, copyfile, initialize_csv.
  rewrite bool_decide_true, Hc by eauto.
  assert (Hfile : (<[backup_name stamp := c]> (tables fs)) !! CSV_FILE = Some c).
  { rewrite lookup_insert_ne by apply backup_name_fresh. exact Hc. }
  cbn [tables]. rewrite bool_decide_true by (rewrite Hfile; eauto). cbn [negb].
  destruct (read_csv _ CSV_FILE) as [df | e]; cbn [fst tables to_csv].
  - rewrite lookup_insert_ne by (intros H; symmetry in H; revert H; apply backup_name_fresh).
    apply lookup_insert_eq.
  - apply lookup_insert_eq.
Qed.

(** Where there was no file, a file with the header alone is written. *)
Lemma reinitialize_absent (stamp : string) (fs : disk) :
  tables fs !! CSV_FILE = None ->
  tables (reinitialize stamp fs).1 !! CSV_FILE = Some (Lines [expected_columns]).
Proof.
  intros Hc. unfold reinitialize, initialize_csv.
  rewrite !bool_decide_false by (rewrite Hc; intros [? ?]; discriminate).
  cbn [negb fst to_csv tables]. apply lookup_insert_eq.
Qed.

(** Where the file is read, it is written back with all its rows. *)
Lemma reinitialize_readable (stamp : string) (fs : disk) (lines : list (list string))
    (df : DataFrame) :
  tables fs !! CSV_FILE = Some (Lines lines) ->
  read_lines lines = Return df ->
  tables (reinitialize stamp fs).1 !! CSV_FILE
  = Some (Lines (to_lines (add_missing_columns df))).
Proof.
  intros Hc Hread. unfold reinitialize, copyfile, initialize_csv.
  rewrite bool_decide_true, Hc by eauto.
  assert (Hfile : (<[backup_name stamp := Lines lines]> (tables fs)) !! CSV_FILE
                  = Some (Lines lines)).
  { rewrite lookup_insert_ne by apply backup_name_fresh. exact Hc. }
  cbn [tables]. rewrite bool_decide_true by (rewrite Hfile; eauto). cbn [negb].
  unfold read_csv. cbn [tables]. rewrite Hfile, Hread.
  cbn [fst to_csv tables]. apply lookup_insert_eq.
Qed.

(** C1, on the code.  Reinitialising a store that holds a row leaves the
    row in the store; reinitialising a store whose file is garbled leaves
    the file garbled and shows the error of the unbound name.  In both
    cases the backup holds the file as it was. *)
Theorem reinitialize_keeps_store :
  let line := ["7E892CE1"; "Ali"; "Class 1"; EmptyString; "APRIL"; "500"; "0"; "0";
               "500"; "05-04-2024"; "Clerk"; "05-04-2024 09:30"] in
  let kept := {| tables := {[ CSV_FILE := Lines [expected_columns; line] ]};
                 documents := ∅ |} in
  let garbled := {| tables := {[ CSV_FILE := Garbled "PK" ]}; documents := ∅ |} in
  let stamp := "20240405_093000" in
  tables (reinitialize stamp kept).1 !! CSV_FILE = Some (Lines [expected_columns; line])
  /\ List.length (rows (load_data false (reinitialize stamp kept).1)) = 1
  /\ tables (reinitialize stamp kept).1 !! backup_name stamp
     = Some (Lines [expected_columns; line])
  /\ (reinitialize stamp kept).2
     = [st_warning "Created backup: backup_20240405_093000.csv";
        st_success "CSV file reinitialized successfully"]
  /\ tables (reinitialize stamp garbled).1 !! CSV_FILE = Some (Garbled "PK")
  /\ tables (reinitialize stamp garbled).1 !! backup_name stamp = Some (Garbled "PK")
  /\ (reinitialize stamp garbled).2
     = [st_warning "Created backup: backup_20240405_093000.csv";
        st_error "Error: local variable 'expected_columns' referenced before assignment"].
Proof.
  intros line kept garbled stamp.
  repeat split; vm_compute; reflexivity.
Qed.

(** * More of the program *)

(** ** Accounts created, reset and deleted *)

Lemma stored_account_dump (users : gmap string account) (fs : disk) (username : string) :
  stored_account (json_dump users USER_DB_FILE fs) username = users !! username.
Proof.
  unfold stored_account, json_dump. cbn [documents].
  rewrite lookup_insert_eq. reflexivity.
Qed.

Lemma authenticate_stored (fs : disk) (st : session) (username pw : string) (acct : account) :
  stored_account fs username = Some acct ->
  password acct = Some (hash_password pw) ->
  authenticate_user fs st username pw
  = ({| authenticated := true; current_user := Some username;
        session_is_admin := default false (is_admin acct) |}, true).
Proof.
  intros Hacct Hpw. rewrite authenticate_user_unfold, Hacct, Hpw.
  assert (verify_password (hash_password pw) pw = true) as ->
    by (apply verify_password_spec; reflexivity).
  reflexivity.
Qed.

Lemma authenticate_unknown (fs : disk) (st : session) (username pw : string) :
  stored_account fs username = None ->
  authenticate_user fs st username pw = (st, false).
Proof. intros H. rewrite authenticate_user_unfold, H. reflexivity. Qed.

(** X1. Where there is no user database, initialisation writes one in
    which "admin" logs in with "admin123" as an administrator and nobody
    else logs in; where there is one, whatever it holds, initialisation
    leaves the disk as it is, so a second initialisation changes nothing. *)
Theorem initialize_user_db_bootstrap (now now' : string) (fs : disk) (st : session) :
  initialize_user_db now' (initialize_user_db now fs) = initialize_user_db now fs
  /\ (is_Some (documents fs !! USER_DB_FILE) -> initialize_user_db now fs = fs)
  /\ (documents fs !! USER_DB_FILE = None ->
      authenticate_user (initialize_user_db now fs) st "admin" "admin123"
      = ({| authenticated := true; current_user := Some "admin";
            session_is_admin := true |}, true)
      /\ forall username pw, username <> "admin" ->
           authenticate_user (initialize_user_db now fs) st username pw = (st, false)).
Proof.
  assert (Hkeep : forall t fs', is_Some (documents fs' !! USER_DB_FILE) ->
                                initialize_user_db t fs' = fs').
  { intros t fs' H. unfold initialize_user_db. rewrite bool_decide_true by assumption.
    reflexivity. }
  split; [| split; [apply Hkeep |]].
  - destruct (documents fs !! USER_DB_FILE) as [c |] eqn:Hdoc.
    + rewrite (Hkeep now fs) by (rewrite Hdoc; eauto).
      apply Hkeep. rewrite Hdoc. eauto.
    + apply Hkeep. unfold initialize_user_db.
      rewrite bool_decide_false by (rewrite Hdoc; intros [? ?]; discriminate).
      cbn [negb json_dump documents]. rewrite lookup_insert_eq. eauto.
  - intros Hdoc. unfold initialize_user_db.
    rewrite bool_decide_false by (rewrite Hdoc; intros [? ?]; discriminate).
    cbn [negb]. split.
    + rewrite (authenticate_stored _ st "admin" "admin123"
                 {| password := Some (hash_password "admin123");
                    is_admin := Some true; created_at := Some now |});
        [reflexivity | | reflexivity].
      rewrite stored_account_dump. apply lookup_singleton_eq.
    + intros username pw Hne. apply authenticate_unknown.
      rewrite stored_account_dump. apply lookup_singleton_ne. congruence.
Qed.

Lemma create_user_cases (fs : disk) (now username pw : string) (admin : bool) :
  let acct := {| password := Some (hash_password pw); is_admin := Some admin;
                 created_at := Some now |} in
  create_user fs now username pw admin =
  match documents fs !! USER_DB_FILE with
  | Some (Malformed _) => (fs, (false, "Error creating user: Expecting value"))
  | Some (Document users) =>
      match users !! username with
      | Some _ => (fs, (false, "Username already exists"))
      | None => (json_dump (<[username := acct]> users) USER_DB_FILE fs,
                 (true, "User created successfully"))
      end
  | None => (json_dump (<[username := acct]> ∅) USER_DB_FILE fs,
             (true, "User created successfully"))
  end.
Proof.
  intros acct. unfold create_user, open_read.
  destruct (documents fs !! USER_DB_FILE) as [[users | raw] |] eqn:Hdoc.
  - rewrite bool_decide_true by eauto. cbn [bind json_load].
    destruct (users !! username); reflexivity.
  - rewrite bool_decide_true by eauto. reflexivity.
  - rewrite bool_decide_false by (intros [? ?]; discriminate).
    cbn [bind]. rewrite lookup_empty. reflexivity.
Qed.

(** X2. On a store that is absent or decodes and does not have the user
    name, [create_user] answers success, the new user logs in with the
    password given and gets the admin flag given, every other account is
    as it was, and the record store is not touched. *)
Theorem create_user_then_login (fs : disk) (now username pw : string) (admin : bool)
    (st : session) :
  (forall raw, documents fs !! USER_DB_FILE <> Some (Malformed raw)) ->
  stored_account fs username = None ->
  let fs' := (create_user fs now username pw admin).1 in
  (create_user fs now username pw admin).2 = (true, "User created successfully")
  /\ authenticate_user fs' st username pw
     = ({| authenticated := true; current_user := Some username;
           session_is_admin := admin |}, true)
  /\ (forall other, other <> username ->
        stored_account fs' other = stored_account fs other)
  /\ tables fs' = tables fs.
Proof.
  intros Hdecodes Hnew fs'. subst fs'. rewrite create_user_cases.
  unfold stored_account in Hnew |- *.
  destruct (documents fs !! USER_DB_FILE) as [[users | raw] |] eqn:Hdoc.
  - rewrite Hnew. cbn [fst snd].
    split; [reflexivity |]. split; [| split; [| reflexivity]].
    + rewrite (authenticate_stored _ st username pw
                 {| password := Some (hash_password pw); is_admin := Some admin;
                    created_at := Some now |});
        [reflexivity | | reflexivity].
      rewrite stored_account_dump. apply lookup_insert_eq.
    + intros other Hne. fold (stored_account (json_dump (<[username:=
        {| password := Some (hash_password pw); is_admin := Some admin;
           created_at := Some now |}]> users) USER_DB_FILE fs) other).
      rewrite stored_account_dump. apply lookup_insert_ne. congruence.
  - exfalso. eapply Hdecodes. reflexivity.
  - cbn [fst snd].
    split; [reflexivity |]. split; [| split; [| reflexivity]].
    + rewrite (authenticate_stored _ st username pw
                 {| password := Some (hash_password pw); is_admin := Some admin;
                    created_at := Some now |});
        [reflexivity | | reflexivity].
      rewrite stored_account_dump. apply lookup_insert_eq.
    + intros other Hne. fold (stored_account (json_dump (<[username:=
        {| password := Some (hash_password pw); is_admin := Some admin;
           created_at := Some now |}]> ∅) USER_DB_FILE fs) other).
      rewrite stored_account_dump, lookup_insert_ne by congruence. apply lookup_empty.
Qed.

Lemma create_user_then_login_witness :
  let fs := initialize_user_db "2024-01-01 00:00:00" {| tables := ∅; documents := ∅ |} in
  let st := {| authenticated := false; current_user := None; session_is_admin := false |} in
  authenticate_user (create_user fs "2024-01-02 08:00:00" "clerk" "secret" false).1
    st "clerk" "secret"
  = ({| authenticated := true; current_user := Some "clerk";
        session_is_admin := false |}, true).
Proof.
  intros fs st.
  apply (create_user_then_login fs "2024-01-02 08:00:00" "clerk" "secret" false st).
  - intros raw. vm_compute. discriminate.
  - vm_compute. reflexivity.
Defined.

(** X3. Whatever is typed into the "Create User" form, no account that
    exists is changed or removed and the record store is not touched; an
    empty user name, an empty password or a confirmation that differs
    writes nothing at all. *)
Theorem create_user_submit_keeps_accounts (now : string) (fs : disk)
    (new_username new_password confirm_password : string) (admin : bool) :
  let fs' := (create_user_submit now fs new_username new_password confirm_password admin).1 in
  tables fs' = tables fs
  /\ (forall username acct,
        stored_account fs username = Some acct -> stored_account fs' username = Some acct)
  /\ (new_username = EmptyString \/ new_password = EmptyString
      \/ new_password <> confirm_password -> fs' = fs).
Proof.
  intros fs'. subst fs'. unfold create_user_submit.
  destruct (String.eqb_spec new_username EmptyString) as [Hu | Hu];
    [cbn [orb fst]; auto |].
  destruct (String.eqb_spec new_password EmptyString) as [Hp | Hp];
    [cbn [orb fst]; auto |].
  destruct (String.eqb_spec new_password confirm_password) as [Hc | Hc];
    [| cbn [orb negb fst]; auto].
  cbn [orb negb]. rewrite create_user_cases.
  assert (Hnot : new_username = EmptyString \/ new_password = EmptyString
                 \/ new_password <> confirm_password -> False) by tauto.
  unfold stored_account.
  destruct (documents fs !! USER_DB_FILE) as [[users | raw] |] eqn:Hdoc.
  - destruct (users !! new_username) as [old |] eqn:Hold; cbn [fst].
    + rewrite Hdoc. split; [reflexivity |]. split; [auto | tauto].
    + split; [reflexivity |]. split; [| tauto].
      intros username acct Hacct. cbn [json_dump documents].
      rewrite lookup_insert_eq. rewrite lookup_insert_ne; [assumption |].
      intros <-. congruence.
  - cbn [fst]. rewrite Hdoc. split; [reflexivity |]. split; [auto | tauto].
  - cbn [fst]. split; [reflexivity |]. split; [discriminate | tauto].
Qed.

Lemma delete_user_cases (fs : disk) (st : session) (user_to_delete : string) :
  delete_user fs st user_to_delete =
  if bool_decide (Some user_to_delete = current_user st) then
    (fs, st_error "You cannot delete your own account!")
  else if String.eqb user_to_delete "admin" then
    (fs, st_error "Cannot delete the default admin account!")
  else
    match documents fs !! USER_DB_FILE with
    | Some (Document users) =>
        match users !! user_to_delete with
        | Some _ =>
            (json_dump (delete user_to_delete users) USER_DB_FILE fs,
             st_success ("User '" +:+ user_to_delete +:+ "' deleted successfully!"))
        | None => (fs, st_error "User not found!")
        end
    | Some (Malformed _) => (fs, st_error "Error deleting user: Expecting value")
    | None => (fs, st_error "Error deleting user: No such file or directory")
    end.
Proof.
  unfold delete_user, open_read.
  destruct (bool_decide _); [reflexivity |].
  destruct (String.eqb _ _); [reflexivity |].
  destruct (documents fs !! USER_DB_FILE) as [[users | raw] |]; try reflexivity.
  cbn [bind json_load]. destruct (users !! user_to_delete); reflexivity.
Qed.

(** X4. After a deletion that went through, the deleted user logs in with
    no password at all, every other account is as it was and the record
    store is not touched. *)
Theorem delete_user_no_login (fs : disk) (st : session) (user_to_delete : string) :
  delete_result_of (delete_user fs st user_to_delete).2 = Deleted ->
  let fs' := (delete_user fs st user_to_delete).1 in
  (forall st' pw, authenticate_user fs' st' user_to_delete pw = (st', false))
  /\ (forall other, other <> user_to_delete ->
        stored_account fs' other = stored_account fs other)
  /\ tables fs' = tables fs.
Proof.
  rewrite delete_user_cases.
  destruct (bool_decide _); [discriminate |].
  destruct (String.eqb _ _); [discriminate |].
  destruct (documents fs !! USER_DB_FILE) as [[users | raw] |] eqn:Hdoc;
    try discriminate.
  destruct (users !! user_to_delete) as [acct |] eqn:Hacct; [| discriminate].
  intros _. cbn [fst]. split; [| split; [| reflexivity]].
  - intros st' pw. apply authenticate_unknown.
    rewrite stored_account_dump. apply lookup_delete_eq.
  - intros other Hne. rewrite stored_account_dump.
    unfold stored_account. rewrite Hdoc. apply lookup_delete_ne. congruence.
Qed.

Lemma delete_user_no_login_witness :
  let fs0 := initialize_user_db "2024-01-01 00:00:00" {| tables := ∅; documents := ∅ |} in
  let fs := (create_user fs0 "2024-01-02 08:00:00" "clerk" "secret" false).1 in
  let st := {| authenticated := true; current_user := Some "admin";
               session_is_admin := true |} in
  authenticate_user (delete_user fs st "clerk").1 logout "clerk" "secret" = (logout, false).
Proof.
  intros fs0 fs st.
  refine (proj1 (delete_user_no_login fs st "clerk" _) logout "secret").
  vm_compute. reflexivity.
Defined.

(** X5. Whatever name is given to the "Delete User" button, the "admin"
    account and the account of the caller stay in the store as they
    were. *)
Theorem delete_user_keeps_protected (fs : disk) (st : session)
    (user_to_delete : string) (acct : account) :
  (stored_account fs "admin" = Some acct ->
   stored_account (delete_user fs st user_to_delete).1 "admin" = Some acct)
  /\ (forall caller, current_user st = Some caller ->
        stored_account fs caller = Some acct ->
        stored_account (delete_user fs st user_to_delete).1 caller = Some acct).
Proof.
  rewrite delete_user_cases.
  case_bool_decide as Hself; [cbn [fst]; auto |].
  destruct (String.eqb_spec user_to_delete "admin") as [Hadmin | Hadmin]; [cbn [fst]; auto |].
  destruct (documents fs !! USER_DB_FILE) as [[users | raw] |] eqn:Hdoc;
    [| cbn [fst]; auto ..].
  destruct (users !! user_to_delete) as [old |] eqn:Hold; [| cbn [fst]; auto].
  cbn [fst]. split.
  - intros Ha. rewrite stored_account_dump. unfold stored_account in Ha.
    rewrite Hdoc in Ha. rewrite lookup_delete_ne by assumption. exact Ha.
  - intros caller Hcaller Ha. rewrite stored_account_dump. unfold stored_account in Ha.
    rewrite Hdoc in Ha. rewrite lookup_delete_ne by congruence. exact Ha.
Qed.

Lemma reset_password_cases (fs : disk) (selected_user new_password confirm_password : string) :
  reset_password fs selected_user new_password confirm_password =
  match documents fs !! USER_DB_FILE with
  | Some (Document users) =>
      if String.eqb new_password EmptyString then
        (fs, [Shown (st_error "Password cannot be empty!")])
      else if negb (String.eqb new_password confirm_password) then
        (fs, [Shown (st_error "Passwords do not match!")])
      else
        match users !! selected_user with
        | Some acct =>
            (json_dump (<[selected_user := {| password := Some (hash_password new_password);
                                              is_admin := is_admin acct;
                                              created_at := created_at acct |}]> users)
                       USER_DB_FILE fs,
             [Shown (st_success ("Password for " +:+ selected_user +:+ " reset successfully!"));
              st_info ("New password: " +:+ new_password)])
        | None => (fs, [Shown (st_error ("Error resetting password: " +:+ selected_user))])
        end
  | Some (Malformed _) =>
      (fs, [Shown (st_error "Error resetting password: Expecting value")])
  | None => (fs, [Shown (st_error "Error resetting password: No such file or directory")])
  end.
Proof.
  unfold reset_password, open_read.
  destruct (documents fs !! USER_DB_FILE) as [[users | raw] |]; try reflexivity.
  cbn [bind json_load].
  destruct (String.eqb new_password EmptyString); [reflexivity |].
  destruct (negb _); [reflexivity |].
  destruct (users !! selected_user); reflexivity.
Qed.

(** X6. A reset with a password that is not empty and is confirmed, for a
    user the store has, stores the hash of the new password and leaves the
    admin flag and the creation time of the account: the user logs in with
    the new password, with the rights held before; the other accounts are
    as they were. *)
Theorem reset_password_then_login (fs : disk) (st : session)
    (selected_user new_password : string) (acct : account) :
  stored_account fs selected_user = Some acct ->
  new_password <> EmptyString ->
  let fs' := (reset_password fs selected_user new_password new_password).1 in
  stored_account fs' selected_user
  = Some {| password := Some (hash_password new_password);
            is_admin := is_admin acct; created_at := created_at acct |}
  /\ authenticate_user fs' st selected_user new_password
     = ({| authenticated := true; current_user := Some selected_user;
           session_is_admin := default false (is_admin acct) |}, true)
  /\ (forall other, other <> selected_user ->
        stored_account fs' other = stored_account fs other).
Proof.
  intros Hacct Hnew fs'. subst fs'. rewrite reset_password_cases.
  unfold stored_account in Hacct.
  destruct (documents fs !! USER_DB_FILE) as [[users | raw] |] eqn:Hdoc;
    try discriminate.
  destruct (String.eqb_spec new_password EmptyString) as [? | _]; [contradiction |].
  rewrite String.eqb_refl. cbn [negb]. rewrite Hacct. cbn [fst].
  assert (Hstored : stored_account
            (json_dump (<[selected_user := {| password := Some (hash_password new_password);
                                              is_admin := is_admin acct;
                                              created_at := created_at acct |}]> users)
                       USER_DB_FILE fs) selected_user
          = Some {| password := Some (hash_password new_password);
                    is_admin := is_admin acct; created_at := created_at acct |}).
  { rewrite stored_account_dump. apply lookup_insert_eq. }
  split; [exact Hstored |]. split.
  - rewrite (authenticate_stored _ st selected_user new_password _ Hstored);
      reflexivity.
  - intros other Hne. rewrite stored_account_dump. unfold stored_account.
    rewrite Hdoc. apply lookup_insert_ne. congruence.
Qed.

Lemma reset_password_then_login_witness :
  let fs := initialize_user_db "2024-01-01 00:00:00" {| tables := ∅; documents := ∅ |} in
  let st := {| authenticated := false; current_user := None; session_is_admin := false |} in
  authenticate_user (reset_password fs "admin" "s3cret" "s3cret").1 st "admin" "s3cret"
  = ({| authenticated := true; current_user := Some "admin";
        session_is_admin := true |}, true).
Proof.
  intros fs st.
  refine (proj1 (proj2 (reset_password_then_login fs st "admin" "s3cret"
            {| password := Some (hash_password "admin123"); is_admin := Some true;
               created_at := Some "2024-01-01 00:00:00" |} _ _))).
  - vm_compute. reflexivity.
  - discriminate.
Defined.

(** X7. Whatever is typed into the "Reset Password" form, every account
    stays in the store with its admin flag and its creation time, the
    accounts other than the one picked stay as they were, and the record
    store is not touched; an empty password, a confirmation that differs or
    a user the store does not have writes nothing at all. *)
Theorem reset_password_keeps (fs : disk)
    (selected_user new_password confirm_password : string) :
  let fs' := (reset_password fs selected_user new_password confirm_password).1 in
  tables fs' = tables fs
  /\ (forall username acct,
        stored_account fs username = Some acct ->
        exists acct', stored_account fs' username = Some acct'
                      /\ is_admin acct' = is_admin acct
                      /\ created_at acct' = created_at acct
                      /\ (username <> selected_user -> acct' = acct))
  /\ (new_password = EmptyString \/ new_password <> confirm_password
      \/ stored_account fs selected_user = None -> fs' = fs).
Proof.
  intros fs'. subst fs'. rewrite reset_password_cases. unfold stored_account.
  destruct (documents fs !! USER_DB_FILE) as [[users | raw] |] eqn:Hdoc;
    [| cbn [fst]; rewrite Hdoc; repeat split; eauto; discriminate ..].
  destruct (String.eqb_spec new_password EmptyString) as [Hp | Hp];
    [cbn [fst]; rewrite Hdoc; repeat split; eauto 6 |].
  destruct (String.eqb_spec new_password confirm_password) as [Hc | Hc];
    [| cbn [negb fst]; rewrite Hdoc; repeat split; eauto 6].
  cbn [negb].
  destruct (users !! selected_user) as [old |] eqn:Hold;
    [| cbn [fst]; rewrite Hdoc; repeat split; eauto 6].
  cbn [fst json_dump tables documents]. rewrite lookup_insert_eq.
  split; [reflexivity |]. split.
  - intros username acct Hacct. destruct (decide (username = selected_user)) as [-> | Hne].
    + rewrite lookup_insert_eq. eexists. split; [reflexivity |].
      assert (old = acct) as -> by congruence. cbn. tauto.
    + rewrite lookup_insert_ne by congruence. eauto.
  - intros [? | [? | ?]]; [contradiction | contradiction | discriminate].
Qed.

(** ** Records loaded, deleted and edited *)

(** X8. Whatever the store holds, the frame that [load_data] returns is the
    empty frame or has the twelve expected columns; each of its rows has a
    cell for every column and is not empty throughout; each date is missing
    or the ['%d-%m-%Y'] text of a calendar date, each entry timestamp is
    missing or the ['%d-%m-%Y %H:%M'] text of a date and time. *)
Theorem load_data_normalized (legacy : bool) (fs : disk) :
  let df := load_data legacy fs in
  (df = empty_frame \/ forall col, col ∈ expected_columns -> col ∈ columns df)
  /\ Forall (fun r =>
               List.length r = List.length (columns df)
               /\ forallb is_nan r = false
               /\ formatted DMY (loc (columns df) r "Date")
               /\ formatted DMY_HM (loc (columns df) r "Entry Timestamp"))
            (rows df).
Proof.
  intros df. subst df.
  destruct (first_frame legacy fs) as [df0 |] eqn:Hframe.
  - destruct (load_data_loaded _ _ _ Hframe) as [Hcols Hwidth _ Hrows Hdate Hstamp].
    split; [right; exact Hcols |].
    rewrite Forall_forall in *. intros r Hr. auto.
  - rewrite (load_data_unreadable _ _ Hframe). split; [left; reflexivity | constructor].
Qed.




(** ** Initialisation *)

Lemma add_missing_columns_rows (df : DataFrame) :
  Forall (fun r => List.length r = List.length (columns df)) (rows df) ->
  Forall (Forall canonical) (rows df) ->
  (forall col, col ∈ expected_columns -> col ∈ columns (add_missing_columns df))
  /\ columns (add_missing_columns df) <> []
  /\ Forall (fun r => List.length r = List.length (columns (add_missing_columns df)))
            (rows (add_missing_columns df))
  /\ Forall (Forall canonical) (rows (add_missing_columns df)).
Proof.
  intros Hwidth Hcells. unfold add_missing_columns. rewrite add_columns_fold.
  cbn [columns rows]. rewrite Forall_forall in Hwidth, Hcells.
  assert (Hcols : forall col, col ∈ expected_columns ->
            col ∈ columns df ++ missing_columns (columns df) expected_columns)
    by (intros col; apply expected_columns_present).
  split; [exact Hcols |]. split; [| split].
  - intros Hnil. specialize (Hcols "ID"). rewrite Hnil in Hcols.
    eapply not_elem_of_nil, Hcols. apply list_elem_of_here.
  - apply Forall_forall.
    intros r' (r & <- & Hr%list_elem_of_In)%list_elem_of_In%in_map_iff.
    rewrite !length_app, repeat_length, (Hwidth r Hr). reflexivity.
  - apply Forall_forall.
    intros r' (r & <- & Hr%list_elem_of_In)%list_elem_of_In%in_map_iff.
    apply Forall_app. split; [auto |].
    apply Forall_forall. intros c Hc%list_elem_of_In%repeat_spec. subst c.
    apply canonical_NaN.
Qed.

Lemma initialize_csv_read (fs : disk) (df : DataFrame) :
  read_csv fs CSV_FILE = Return df ->
  initialize_csv fs = Return (to_csv (add_missing_columns df) CSV_FILE fs)
  /\ read_csv (to_csv (add_missing_columns df) CSV_FILE fs) CSV_FILE
     = Return (add_missing_columns df).
Proof.
  intros Hread. unfold initialize_csv.
  assert (Hfile : is_Some (tables fs !! CSV_FILE)).
  { unfold read_csv in Hread. destruct (tables fs !! CSV_FILE); [eauto | discriminate]. }
  rewrite bool_decide_true, Hread by assumption. split; [reflexivity |].
  assert (Hrows : Forall (fun r => List.length r = List.length (columns df)) (rows df)
                  /\ Forall (Forall canonical) (rows df)).
  { unfold read_csv in Hread.
    destruct (tables fs !! CSV_FILE) as [[lines | raw] |]; try discriminate.
    eapply read_lines_spec, Hread. }
  destruct Hrows as [Hwidth Hcells].
  destruct (add_missing_columns_rows df Hwidth Hcells) as (_ & Hne & Hw & Hc).
  unfold read_csv, to_csv. cbn [tables]. rewrite lookup_insert_eq.
  apply read_lines_to_lines; assumption.
Qed.

Lemma to_csv_twice (df : DataFrame) (fs : disk) :
  to_csv df CSV_FILE (to_csv df CSV_FILE fs) = to_csv df CSV_FILE fs.
Proof. unfold to_csv. cbn [tables documents]. rewrite insert_insert_eq. reflexivity. Qed.

Lemma initialize_csv_result (fs fs1 : disk) :
  initialize_csv fs = Return fs1 ->
  exists df1,
    fs1 = to_csv df1 CSV_FILE fs
    /\ read_csv fs1 CSV_FILE = Return df1
    /\ (forall col, col ∈ expected_columns -> col ∈ columns df1)
    /\ initialize_csv fs1 = Return fs1
    /\ (forall df, read_csv fs CSV_FILE = Return df -> df1 = add_missing_columns df).
Proof.
  intros Hinit.
  destruct (read_csv fs CSV_FILE) as [df | e] eqn:Hread.
  - destruct (initialize_csv_read fs df Hread) as [Hfs1 Hread1].
    rewrite Hfs1 in Hinit. injection Hinit as <-.
    destruct (initialize_csv_read _ _ Hread1) as [Hagain _].
    assert (Hwidth : Forall (fun r => List.length r = List.length (columns df)) (rows df)
                     /\ Forall (Forall canonical) (rows df)).
    { unfold read_csv in Hread.
      destruct (tables fs !! CSV_FILE) as [[lines | raw] |]; try discriminate.
      eapply read_lines_spec, Hread. }
    destruct (add_missing_columns_rows df (proj1 Hwidth) (proj2 Hwidth)) as (Hcols & _).
    rewrite (add_missing_columns_id (add_missing_columns df)) in Hagain by assumption.
    exists (add_missing_columns df).
    split; [reflexivity |]. split; [assumption |]. split; [assumption |].
    split; [rewrite Hagain, to_csv_twice; reflexivity |].
    intros df' [= <-]. reflexivity.
  - unfold initialize_csv in Hinit.
    destruct (tables fs !! CSV_FILE) as [c |] eqn:Hfile.
    + rewrite bool_decide_true, Hread in Hinit by eauto. discriminate.
    + rewrite bool_decide_false in Hinit by (intros [? ?]; discriminate).
      cbn [negb] in Hinit. injection Hinit as <-.
      assert (Hread1 : read_csv (to_csv (frame_of_columns expected_columns) CSV_FILE fs)
                         CSV_FILE = Return (frame_of_columns expected_columns)).
      { unfold read_csv, to_csv. cbn [tables]. rewrite lookup_insert_eq. reflexivity. }
      destruct (initialize_csv_read _ _ Hread1) as [Hagain _].
      rewrite (add_missing_columns_id (frame_of_columns expected_columns)) in Hagain
        by (intros col Hcol; exact Hcol).
      exists (frame_of_columns expected_columns).
      split; [reflexivity |]. split; [assumption |]. split; [auto |].
      split; [rewrite Hagain, to_csv_twice; reflexivity |].
      intros df [=].
Qed.

(** X10. An initialisation of the record store that goes through is
    final: a second one changes nothing.  It does not touch the user
    database, and where the file was read, it keeps every row: the file
    reads as the frame it was with the missing columns added, and
    [load_data] returns what it returned before. *)
Theorem initialize_csv_settles (fs fs1 : disk) :
  initialize_csv fs = Return fs1 ->
  initialize_csv fs1 = Return fs1
  /\ documents fs1 = documents fs
  /\ (forall df, read_csv fs CSV_FILE = Return df ->
        read_csv fs1 CSV_FILE = Return (add_missing_columns df)
        /\ forall legacy, load_data legacy fs1 = load_data legacy fs).
Proof.
  intros Hinit.
  destruct (initialize_csv_result fs fs1 Hinit) as (df1 & -> & Hread1 & Hcols & Hagain & Hdf).
  split; [exact Hagain |]. split; [reflexivity |].
  intros df Hread. specialize (Hdf df Hread). subst df1.
  split; [exact Hread1 |].
  assert (Hfile : is_Some (tables fs !! CSV_FILE)).
  { unfold read_csv in Hread. destruct (tables fs !! CSV_FILE); [eauto | discriminate]. }
  intros legacy. unfold load_data. rewrite Hread, Hread1.
  rewrite !bool_decide_true by (assumption || (cbn [to_csv tables];
                                               rewrite lookup_insert_eq; eauto)).
  cbn [negb bind]. rewrite (add_missing_columns_id (add_missing_columns df)) by assumption.
  reflexivity.
Qed.

Lemma initialize_csv_settles_witness :
  let fs := {| tables := {[ CSV_FILE :=
                 Lines [["Student Name"; "Month"]; ["Ali"; "MAY"]] ]};
               documents := ∅ |} in
  let fs1 := to_csv (add_missing_columns
                       {| columns := ["Student Name"; "Month"];
                          rows := [[Str "Ali"; Str "MAY"]] |}) CSV_FILE fs in
  initialize_csv fs1 = Return fs1.
Proof.
  intros fs fs1.
  refine (proj1 (initialize_csv_settles fs fs1 _)).
  vm_compute. reflexivity.
Defined.

Lemma initialize_csv_documents (fs : disk) (docs : gmap string json_text) :
  initialize_csv {| tables := tables fs; documents := docs |}
  = match initialize_csv fs with
    | Return fs1 => Return {| tables := tables fs1; documents := docs |}
    | Raise e => Raise e
    end.
Proof.
  unfold initialize_csv, read_csv. cbn [tables].
  destruct (tables fs !! CSV_FILE) as [[lines | raw] |].
  - rewrite !bool_decide_true by eauto. cbn [negb].
    destruct (read_lines lines); reflexivity.
  - rewrite !bool_decide_true by eauto. reflexivity.
  - rewrite !bool_decide_false by (intros [? ?]; discriminate). reflexivity.
Qed.

Lemma initialize_user_db_tables (now : string) (fs : disk) :
  initialize_user_db now fs
  = {| tables := tables fs; documents := documents (initialize_user_db now fs) |}
  /\ is_Some (documents (initialize_user_db now fs) !! USER_DB_FILE).
Proof.
  unfold initialize_user_db. case_bool_decide as Hdoc; cbn [negb].
  - destruct fs; split; [reflexivity | assumption].
  - split; [reflexivity |]. cbn [json_dump documents]. rewrite lookup_insert_eq. eauto.
Qed.

(** X11. [initialize_files] raises exactly when the record file is there
    and cannot be read, and then nothing is written, the user database
    included.  When it goes through, the record file reads as a frame with
    the twelve columns, the user database exists, and a next start-up
    changes nothing. *)
Theorem initialize_files_ready (now : string) (fs : disk) :
  ((exists e, initialize_files now fs = Raise e) <->
   is_Some (tables fs !! CSV_FILE) /\ exists e, read_csv fs CSV_FILE = Raise e)
  /\ (forall fs', initialize_files now fs = Return fs' ->
        (exists df, read_csv fs' CSV_FILE = Return df
                    /\ forall col, col ∈ expected_columns -> col ∈ columns df)
        /\ is_Some (documents fs' !! USER_DB_FILE)
        /\ forall now', initialize_files now' fs' = Return fs').
Proof.
  unfold initialize_files. split.
  - unfold initialize_csv.
    destruct (tables fs !! CSV_FILE) as [c |] eqn:Hfile.
    + rewrite bool_decide_true by eauto. cbn [negb].
      destruct (read_csv fs CSV_FILE) as [df | e]; cbn [bind].
      * split; [intros [e [=]] | intros [_ [e [=]]]].
      * split; eauto.
    + rewrite bool_decide_false by (intros [? ?]; discriminate). cbn [negb bind].
      split; [intros [e [=]] | intros [[? [=]] _]].
  - intros fs' Hinit.
    destruct (initialize_csv fs) as [fs1 |] eqn:Hcsv; [| discriminate].
    cbn [bind] in Hinit. injection Hinit as <-.
    destruct (initialize_user_db_tables now fs1) as [Hshape Hdb].
    destruct (initialize_csv_result fs fs1 Hcsv) as (df1 & _ & Hread1 & Hcols & Hsettled & _).
    split; [| split; [exact Hdb |]].
    + rewrite Hshape. unfold read_csv. cbn [tables]. fold (read_csv fs1 CSV_FILE).
      eauto.
    + intros now'. rewrite Hshape at 1. rewrite initialize_csv_documents, Hsettled.
      cbn [bind]. rewrite <- Hshape. f_equal.
      unfold initialize_user_db at 1. rewrite bool_decide_true by assumption. reflexivity.
Qed.

(** ** Records appended *)







(** ** Records entered *)











(** ** Records edited *)












(** ** The menu after a login *)

(** X15. After a login that succeeds the session is that of the user, the
    three pages of records are offered, and "User Management" and "System
    Tools" are offered exactly when the stored account has the admin
    flag. *)
Theorem login_menu (fs : disk) (st st' : session) (username pw : string) :
  authenticate_user fs st username pw = (st', true) ->
  authenticated st' = true
  /\ current_user st' = Some username
  /\ (forall entry, entry ∈ ["Enter Fees"; "View All Records"; "Student Yearly Report"] ->
                    entry ∈ menu_options st')
  /\ (forall entry, entry ∈ ["User Management"; "System Tools"] ->
                    entry ∈ menu_options st'
                    <-> exists acct, stored_account fs username = Some acct
                                     /\ is_admin acct = Some true).
Proof.
  rewrite authenticate_user_unfold.
  destruct (stored_account fs username) as [acct |]; [| discriminate].
  destruct (password acct) as [stored |]; [| discriminate].
  destruct (verify_password stored pw); [| discriminate].
  intros [= <-]. split; [reflexivity |]. split; [reflexivity |].
  unfold menu_options. cbn [session_is_admin]. split.
  - intros entry Hentry. destruct (default false (is_admin acct));
      repeat (apply elem_of_cons in Hentry as [-> | Hentry];
              [repeat (apply list_elem_of_here || apply list_elem_of_further) |]);
      apply elem_of_nil in Hentry; contradiction.
  - intros entry Hentry. destruct (is_admin acct) as [[|] |] eqn:Hflag; cbn [default]; split.
    + intros _. exists acct. split; [reflexivity | exact Hflag].
    + intros _.
      repeat (apply elem_of_cons in Hentry as [-> | Hentry];
              [repeat (apply list_elem_of_here || apply list_elem_of_further) |]).
      apply elem_of_nil in Hentry. contradiction.
    + intros Hin. exfalso.
      repeat (apply elem_of_cons in Hentry as [-> | Hentry];
              [repeat (apply elem_of_cons in Hin as [Hin | Hin]; [discriminate |]);
               apply elem_of_nil in Hin; contradiction |]).
      apply elem_of_nil in Hentry. contradiction.
    + intros (acct' & [= <-] & Hflag'). congruence.
    + intros Hin. exfalso.
      repeat (apply elem_of_cons in Hentry as [-> | Hentry];
              [repeat (apply elem_of_cons in Hin as [Hin | Hin]; [discriminate |]);
               apply elem_of_nil in Hin; contradiction |]).
      apply elem_of_nil in Hentry. contradiction.
    + intros (acct' & [= <-] & Hflag'). congruence.
Qed.

Lemma login_menu_witness :
  let fs0 := initialize_user_db "2024-01-01 00:00:00" {| tables := ∅; documents := ∅ |} in
  let fs := (create_user fs0 "2024-01-02 08:00:00" "clerk" "secret" false).1 in
  let st' := {| authenticated := true; current_user := Some "clerk";
                session_is_admin := false |} in
  ("User Management" ∉ menu_options st')
  /\ ("User Management" ∈ menu_options st'
      <-> exists acct, stored_account fs "clerk" = Some acct /\ is_admin acct = Some true).
Proof.
  intros fs0 fs st'. split.
  - vm_compute. intros Hin.
    repeat (apply elem_of_cons in Hin as [Hin | Hin]; [discriminate |]).
    apply elem_of_nil in Hin. exact Hin.
  - refine (proj2 (proj2 (proj2 (login_menu fs logout st' "clerk" "secret" _)))
              "User Management" _).
    + vm_compute. reflexivity.
    + apply list_elem_of_here.
Defined.

(** ** The reports add up *)

Lemma series_sum_cons (c : cell) (cs : list cell) :
  series_sum (c :: cs) = (cell_value c + series_sum cs)%Z.
Proof. destruct c; reflexivity. Qed.

Section Groups.

Context {A : Type} (kf : A -> cell) (vf : A -> cell).

Let S (l : list A) : Z := series_sum (map vf l).

Lemma group_sums_nil (ks : list cell) :
  sumZ (map (fun k => S (filter (fun r => bool_decide (kf r = k)) [])) ks) = 0%Z.
Proof. induction ks as [| k ks IH]; [reflexivity |]. cbn. exact IH. Qed.

Lemma group_sums_cons (r : A) (rs : list A) (ks : list cell) :
  NoDup ks ->
  sumZ (map (fun k => S (filter (fun r => bool_decide (kf r = k)) (r :: rs))) ks)
  = ((if decide (kf r ∈ ks) then cell_value (vf r) else 0)
     + sumZ (map (fun k => S (filter (fun r => bool_decide (kf r = k)) rs)) ks))%Z.
Proof.
  induction 1 as [| k ks Hnotin Hnodup IH].
  - reflexivity.
  - cbn [map sumZ fold_right]. fold (sumZ (map (fun k => S (filter (fun r => bool_decide (kf r = k)) (r :: rs))) ks)).
    fold (sumZ (map (fun k => S (filter (fun r => bool_decide (kf r = k)) rs)) ks)).
    rewrite IH. rewrite filter_cons.
    destruct (decide (kf r = k)) as [Heq | Hne].
    + subst k.
      rewrite (decide_False (P := kf r ∈ ks)) by assumption.
      rewrite (decide_True (P := kf r ∈ kf r :: ks)) by apply list_elem_of_here.
      rewrite decide_True by (apply bool_decide_pack; reflexivity).
      unfold S at 1. cbn [map]. rewrite series_sum_cons.
      fold (S (filter (fun r0 => bool_decide (kf r0 = kf r)) rs)). lia.
    + rewrite (decide_False (P := Is_true (bool_decide (kf r = k))))
        by (intros H%bool_decide_unpack; contradiction).
      destruct (decide (kf r ∈ ks)) as [Hin | Hout].
      * rewrite decide_True by (apply list_elem_of_further; assumption). lia.
      * rewrite decide_False; [lia |].
        intros [Heq | Hin]%elem_of_cons; contradiction.
Qed.

Lemma group_sums (rs : list A) (ks : list cell) :
  NoDup ks ->
  S rs = (sumZ (map (fun k => S (filter (fun r => bool_decide (kf r = k)) rs)) ks)
          + S (filter (fun r => kf r ∉ ks) rs))%Z.
Proof.
  intros Hnodup. induction rs as [| r rs IH].
  - rewrite group_sums_nil. reflexivity.
  - rewrite group_sums_cons by assumption. rewrite filter_cons.
    unfold S at 1. cbn [map]. rewrite series_sum_cons. fold (S rs). rewrite IH.
    destruct (decide (kf r ∈ ks)) as [Hin | Hout].
    + rewrite decide_False by (intros Hout; contradiction). lia.
    + rewrite decide_True by assumption.
      unfold S at 4. cbn [map]. rewrite series_sum_cons.
      fold (S (filter (fun r => kf r ∉ ks) rs)). lia.
Qed.

End Groups.

Lemma filter_agree {A} (P Q : A -> Prop) `{!forall x, Decision (P x)}
    `{!forall x, Decision (Q x)} (l : list A) :
  (forall x, x ∈ l -> P x <-> Q x) -> filter P l = filter Q l.
Proof.
  induction l as [| x l IH]; intros Hl; [reflexivity |].
  rewrite !filter_cons, IH by (intros y Hy; apply Hl, list_elem_of_further, Hy).
  destruct (decide (P x)) as [HP | HP].
  - rewrite decide_True by (apply Hl; [apply list_elem_of_here | assumption]). reflexivity.
  - rewrite decide_False; [reflexivity |].
    intros HQ. apply HP, Hl; [apply list_elem_of_here | assumption].
Qed.

Lemma nunique_le (cs ds : list cell) :
  (forall c, c ≠ NaN -> c ∈ cs -> c ∈ ds) -> nunique cs <= List.length ds.
Proof.
  intros Hsub. unfold nunique. apply submseteq_length, NoDup_submseteq.
  - apply NoDup_remove_dups.
  - intros c [Hc Hin]%elem_of_unique. auto.
Qed.

(** X16. In the summary of a class the unpaid students are at most the
    students, and the students at most the records of the class. *)
Theorem classSummary_counts (df : DataFrame) (category : string) (s : class_summary) :
  classSummary df category = Some s ->
  unpaid_students s <= total_students s <= List.length (class_rows df category).
Proof.
  intros Hs. apply classSummary_Some in Hs as [_ ->]. cbn [unpaid_students total_students].
  set (class_df := select_eq df "Class Category" (Str category)).
  split.
  - apply nunique_le. intros c Hc Hin. apply elem_of_unique. split; [assumption |].
    apply elem_of_series in Hin as (r & Hr & Hname). apply elem_of_series.
    exists r. split; [| exact Hname].
    cbn [select_eq rows] in Hr. apply list_elem_of_filter in Hr as [_ Hr]. exact Hr.
  - unfold nunique.
    transitivity (List.length (series class_df "Student Name")).
    + apply submseteq_length, NoDup_submseteq; [apply NoDup_remove_dups |].
      intros c [_ Hin]%elem_of_unique. exact Hin.
    + unfold series. rewrite length_map. reflexivity.
Qed.

Lemma classSummary_counts_witness :
  let df := frame_of_rows [fee_row "Ali" "Class 1" "APRIL" 500 500;
                           fee_row "Sara" "Class 1" "APRIL" 500 500;
                           fee_row "Ali" "Class 1" "MAY" 0 0;
                           fee_row "Omar" "Class 2" "MAY" 0 0] in
  exists s, classSummary df "Class 1" = Some s
            /\ unpaid_students s = 1 /\ total_students s = 2
            /\ unpaid_students s <= total_students s <= List.length (class_rows df "Class 1").
Proof.
  intros df. eexists. split; [vm_compute; reflexivity |].
  split; [vm_compute; reflexivity |]. split; [vm_compute; reflexivity |].
  exact (classSummary_counts df "Class 1" _ eq_refl).
Defined.

(** X17. The total received of a class is the sum of its monthly series
    and of what its records without a month received: a record whose month
    is missing is counted in the total and in no entry of the series. *)
Theorem monthly_summary_total (df : DataFrame) (category : string) (s : class_summary) :
  classSummary df category = Some s ->
  total_received s
  = (sumZ (map snd (monthly_summary s)) + received_in_month df category NaN)%Z.
Proof.
  intros Hs. apply classSummary_Some in Hs as [_ ->].
  cbn [total_received monthly_summary].
  set (class_df := select_eq df "Class Category" (Str category)).
  unfold groupby_sum. rewrite map_map. cbn [snd].
  unfold series at 1.
  rewrite (group_sums (fun r => loc (columns class_df) r "Month")
             (fun r => loc (columns class_df) r "Received Amount")
             (rows class_df) (merge_sort cell_le (unique (series class_df "Month"))))
    by apply keys_NoDup.
  f_equal.
  unfold received_in_month. f_equal. f_equal.
  change (class_rows df category) with (rows class_df).
  apply filter_agree. intros r Hr. rewrite elem_of_keys.
  change (columns class_df) with (columns df).
  split.
  - intros Hout. destruct (decide (loc (columns df) r "Month" = NaN)) as [Heq | Hne].
    + apply bool_decide_pack. exact Heq.
    + exfalso. apply Hout. split; [exact Hne |]. exists r. split; [exact Hr | reflexivity].
  - intros Heq%bool_decide_unpack [Hne _]. contradiction.
Qed.

Lemma monthly_summary_total_witness :
  let df := frame_of_rows [fee_row "Ali" "Class 1" "APRIL" 500 500;
                           fee_row "Sara" "Class 1" "MAY" 500 300;
                           [Str "X"; Str "Omar"; Str "Class 1"; NaN; NaN; Num 500; Num 0;
                            Num 0; Num 200; Str "05-04-2024"; Str "Clerk";
                            Str "05-04-2024 09:30"]] in
  exists s, classSummary df "Class 1" = Some s
            /\ total_received s = 1000%Z
            /\ monthly_summary s = [(Str "APRIL", 500%Z); (Str "MAY", 300%Z)]
            /\ total_received s
               = (sumZ (map snd (monthly_summary s)) + received_in_month df "Class 1" NaN)%Z.
Proof.
  intros df. eexists. split; [vm_compute; reflexivity |].
  split; [vm_compute; reflexivity |]. split; [vm_compute; reflexivity |].
  exact (monthly_summary_total df "Class 1" _ eq_refl).
Defined.

Lemma NoDup_months : NoDup (map Str months).
Proof. apply (bool_decide_unpack _). vm_compute. exact I. Qed.

(** X18. The totals of a yearly report are the sums of its twelve lines
    and of what the student's records under a month that is none of the
    calendar hold: such a record is counted in the totals and in no line. *)
Theorem yearly_report_totals (df : DataFrame) (student category : string)
    (rep : yearly_report) :
  studentYearlyReport df student category = Some rep ->
  total_monthly_fee rep
  = (sumZ (map line_monthly_fee (monthly_report rep))
     + off_calendar df student category "Monthly Fee")%Z
  /\ report_total_received rep
     = (sumZ (map line_received (monthly_report rep))
        + off_calendar df student category "Received Amount")%Z.
Proof.
  intros Hrep. rewrite (studentYearlyReport_lines _ _ _ _ Hrep).
  revert Hrep. unfold studentYearlyReport.
  change (rows {| columns := columns df; rows := ?rs |}) with rs.
  fold (student_rows df student category).
  destruct (student_rows df student category) as [| first rest] eqn:Hrows; [discriminate |].
  intros [= <-].
  change (series_sum (series {| columns := columns df; rows := first :: rest |} "Monthly Fee")
          = (sumZ (map line_monthly_fee (map (month_line_of df student category) months))
             + off_calendar df student category "Monthly Fee")%Z
          /\ series_sum (series {| columns := columns df; rows := first :: rest |}
                                "Received Amount")
             = (sumZ (map line_received (map (month_line_of df student category) months))
                + off_calendar df student category "Received Amount")%Z).
  rewrite <- Hrows. clear Hrows first rest.
  change (series_sum (map (fun r => loc (columns df) r "Monthly Fee")
                          (student_rows df student category))
          = (sumZ (map line_monthly_fee (map (month_line_of df student category) months))
             + off_calendar df student category "Monthly Fee")%Z
          /\ series_sum (map (fun r => loc (columns df) r "Received Amount")
                             (student_rows df student category))
             = (sumZ (map line_received (map (month_line_of df student category) months))
                + off_calendar df student category "Received Amount")%Z).
  rewrite !map_map.
  unfold off_calendar, month_line_of, sum_in_month. cbn [line_monthly_fee line_received].
  split.
  - rewrite (group_sums (fun r => loc (columns df) r "Month")
               (fun r => loc (columns df) r "Monthly Fee")
               (student_rows df student category) (map Str months) NoDup_months).
    rewrite map_map. reflexivity.
  - rewrite (group_sums (fun r => loc (columns df) r "Month")
               (fun r => loc (columns df) r "Received Amount")
               (student_rows df student category) (map Str months) NoDup_months).
    rewrite map_map. reflexivity.
Qed.

Lemma yearly_report_totals_witness :
  let df := frame_of_rows [fee_row "Ali" "Class 1" "APRIL" 500 500;
                           fee_row "Ali" "Class 1" "MAY" 500 300;
                           fee_row "Ali" "Class 1" "April" 500 200] in
  exists rep, studentYearlyReport df "Ali" "Class 1" = Some rep
              /\ total_monthly_fee rep = 1500%Z
              /\ sumZ (map line_monthly_fee (monthly_report rep)) = 1000%Z
              /\ total_monthly_fee rep
                 = (sumZ (map line_monthly_fee (monthly_report rep))
                    + off_calendar df "Ali" "Class 1" "Monthly Fee")%Z.
Proof.
  intros df. eexists. split; [vm_compute; reflexivity |].
  split; [vm_compute; reflexivity |]. split; [vm_compute; reflexivity |].
  exact (proj1 (yearly_report_totals df "Ali" "Class 1" _ eq_refl)).
Defined.


(** ** Amounts shown *)

Lemma list_ind3 {A} (P : list A -> Prop) :
  P [] -> (forall a, P [a]) -> (forall a b, P [a; b]) -> (forall a b c, P [a; b; c]) ->
  (forall a b c d l, P (d :: l) -> P (a :: b :: c :: d :: l)) ->
  forall l, P l.
Proof.
  intros H0 H1 H2 H3 Hstep l.
  assert (Hall : forall n l, List.length l <= n -> P l).
  { clear l. induction n as [| n IH]; intros l Hl.
    - destruct l; [exact H0 | cbn in Hl; lia].
    - destruct l as [| a [| b [| c [| d l]]]]; auto.
      apply Hstep, IH. cbn in Hl |- *. lia. }
  exact (Hall (List.length l) l (le_n _)).
Qed.

Lemma strip_group_thousands (l : list ascii) :
  Forall (fun c => c <> ","%char) l ->
  filter (fun c => c <> ","%char) (group_thousands l) = l.
Proof.
  induction l as [| a | a b | a b c | a b c d l IH] using list_ind3; intros Hl.
  - reflexivity.
  - cbn [group_thousands]. apply filter_id. exact Hl.
  - cbn [group_thousands]. apply filter_id. exact Hl.
  - cbn [group_thousands]. apply filter_id. exact Hl.
  - change (group_thousands (a :: b :: c :: d :: l))
      with (a :: b :: c :: ","%char :: group_thousands (d :: l)).
    inversion Hl as [| ? ? Ha Hl1]; subst. inversion Hl1 as [| ? ? Hb Hl2]; subst.
    inversion Hl2 as [| ? ? Hc Hl3]; subst.
    rewrite !filter_cons.
    rewrite (decide_True (P := a <> ","%char)) by assumption.
    rewrite (decide_True (P := b <> ","%char)) by assumption.
    rewrite (decide_True (P := c <> ","%char)) by assumption.
    rewrite (decide_False (P := ","%char <> ","%char)) by (intros H; apply H; reflexivity).
    rewrite IH by assumption. reflexivity.
Qed.

Lemma group_thousands_commas (l : list ascii) :
  Forall (fun c => c <> ","%char) l ->
  forall i, i < List.length (group_thousands l) ->
            nth i (group_thousands l) "0"%char = ","%char <-> i mod 4 = 3.
Proof.
  induction l as [| a | a b | a b c | a b c d l IH] using list_ind3; intros Hl i Hi.
  - cbn in Hi. lia.
  - cbn in Hi. destruct i as [| i]; [| lia].
    inversion Hl; subst. cbn. split; [contradiction | discriminate].
  - cbn in Hi. inversion Hl as [| ? ? Ha Hl1]; subst. inversion Hl1 as [| ? ? Hb Hl2]; subst.
    destruct i as [| [| i]]; [| | lia]; cbn; (split; [contradiction | discriminate]).
  - cbn in Hi. inversion Hl as [| ? ? Ha Hl1]; subst. inversion Hl1 as [| ? ? Hb Hl2]; subst.
    inversion Hl2 as [| ? ? Hc Hl3]; subst.
    destruct i as [| [| [| i]]]; [| | | lia]; cbn; (split; [contradiction | discriminate]).
  - revert Hi.
    change (group_thousands (a :: b :: c :: d :: l))
      with (a :: b :: c :: ","%char :: group_thousands (d :: l)).
    inversion Hl as [| ? ? Ha Hl1]; subst. inversion Hl1 as [| ? ? Hb Hl2]; subst.
    inversion Hl2 as [| ? ? Hc Hl3]; subst.
    destruct i as [| [| [| [| i]]]]; intros Hi.
    + cbn. split; [contradiction | discriminate].
    + cbn. split; [contradiction | discriminate].
    + cbn. split; [contradiction | discriminate].
    + cbn. split; reflexivity.
    + change (nth (S (S (S (S i)))) (a :: b :: c :: ","%char :: group_thousands (d :: l)) "0"%char)
        with (nth i (group_thousands (d :: l)) "0"%char).
      replace (S (S (S (S i)))) with (i + 1 * 4) by lia.
      rewrite Nat.Div0.mod_add. apply IH; [assumption |].
      cbn [List.length] in Hi. lia.
Qed.

Lemma filter_rev {A} (P : A -> Prop) `{!forall x, Decision (P x)} (l : list A) :
  filter P (rev l) = rev (filter P l).
Proof.
  induction l as [| x l IH]; [reflexivity |].
  cbn [rev]. rewrite filter_app, IH, (filter_cons P x l), (filter_cons P x []).
  destruct (decide (P x)); cbn [rev]; [reflexivity |]. apply app_nil_r.
Qed.

Lemma string_of_uint_digits (d : Decimal.uint) :
  Forall (fun c => c <> ","%char) (list_ascii_of_string (NilZero.string_of_uint d)).
Proof.
  assert (H : forall d, Forall (fun c => c <> ","%char)
                               (list_ascii_of_string (NilEmpty.string_of_uint d))).
  { clear d. induction d; cbn [NilEmpty.string_of_uint list_ascii_of_string];
      constructor; (discriminate || assumption). }
  destruct d; try apply H. cbn. constructor; [discriminate | constructor].
Qed.

Lemma str_of_int_digits (n : Z) :
  Forall (fun c => c <> ","%char) (list_ascii_of_string (str_of_int (Z.abs n))).
Proof.
  unfold str_of_int. destruct n; cbn [Z.abs Z.to_int NilZero.string_of_int];
    apply string_of_uint_digits.
Qed.

Lemma length_string_of_list_ascii (l : list ascii) :
  String.length (string_of_list_ascii l) = List.length l.
Proof. induction l as [| a l IH]; cbn; congruence. Qed.

Lemma str_of_int_sign (n : Z) :
  str_of_int n = if (n <? 0)%Z then String "-" (str_of_int (Z.abs n)) else str_of_int (Z.abs n).
Proof. destruct n; reflexivity. Qed.

(** X20. An amount is shown after "Rs. " with the digits of its number,
    a minus sign before them when it is negative, and a comma before
    every group of three digits counted from the end, there and nowhere
    else: without its commas the text is the number as it is printed, and
    from the end every fourth character is a comma. *)
Theorem format_currency_digits (n : Z) :
  format_currency (Some n) = "Rs. " +:+ format_thousands n
  /\ strip_commas (format_thousands n) = str_of_int n
  /\ forall i, i < String.length (format_thousands (Z.abs n)) ->
               from_end (format_thousands (Z.abs n)) i = ","%char <-> i mod 4 = 3.
Proof.
  split; [| split].
  - unfold format_currency. destruct (n =? 0)%Z eqn:Hn; [| reflexivity].
    apply Z.eqb_eq in Hn. subst n. reflexivity.
  - unfold strip_commas, format_thousands. rewrite (str_of_int_sign n).
    set (digits := list_ascii_of_string (str_of_int (Z.abs n))).
    assert (Hstrip : filter (fun c => c <> ","%char)
                       (list_ascii_of_string
                          (string_of_list_ascii (rev (group_thousands (rev digits)))))
                     = digits).
    { rewrite list_ascii_of_string_of_list_ascii, filter_rev, strip_group_thousands.
      - apply rev_involutive.
      - apply Forall_forall. intros c Hc%list_elem_of_In%in_rev%list_elem_of_In. revert c Hc.
        apply Forall_forall. apply str_of_int_digits. }
    destruct (n <? 0)%Z.
    + cbn [list_ascii_of_string]. rewrite filter_cons.
      rewrite decide_True by discriminate. cbn [string_of_list_ascii].
      rewrite Hstrip. unfold digits. rewrite string_of_list_ascii_of_string. reflexivity.
    + rewrite Hstrip. unfold digits. apply string_of_list_ascii_of_string.
  - intros i. unfold from_end, format_thousands.
    rewrite (proj2 (Z.ltb_ge (Z.abs n) 0) (Z.abs_nonneg n)), Z.abs_idemp.
    set (digits := list_ascii_of_string (str_of_int (Z.abs n))).
    intros Hi. rewrite list_ascii_of_string_of_list_ascii, rev_involutive.
    apply group_thousands_commas.
    + apply Forall_forall. intros c Hc%list_elem_of_In%in_rev%list_elem_of_In. revert c Hc.
      apply Forall_forall. apply str_of_int_digits.
    + rewrite length_string_of_list_ascii, length_rev in Hi. exact Hi.
Qed.
